(** * Tour Assistant: the weather-window tool, the tool dispatcher and the
      conversation loop of [tour_assistant.py], embedded in Rocq.

    The script is a thin orchestration layer over three collaborators that it
    does not implement: the HTTP client ([requests]), the JSON codec ([json])
    and the chat-completion endpoint.  They are modelled as follows.

    - Python values that travel through JSON are the inductive [pyval];
      dictionaries are association lists in insertion order, with distinct
      keys.
    - Text is [string]; a character is a code point below 256, so that
      [strip] and [lower] are the Python methods on that range.
    - Exceptions are explicit: a computation yields [Return v] or [Raise e].
    - The network is an oracle [http] that answers the n-th request, together
      with the log [sent] of the requests performed so far.
    - The JSON codec is the class [Json]; the theorems hold for every codec.
    - The console input and the replies of the chat endpoint are scripts
      (lists) consumed by the loop. *)

From Stdlib Require Import ZArith List String Ascii Bool Lia.
From Stdlib Require Import SpecFloat.
Import ListNotations.

Local Open Scope string_scope.
Local Open Scope list_scope.

(** ** Python values and exceptions *)

Module Py.

(** The values [json.loads] can produce; a [float] is an IEEE number. *)
#[warnings="-register-all"] Inductive pyval : Type :=
| VNone
| VBool (b : bool)
| VInt (z : Z)
| VFloat (f : spec_float)
| VStr (s : string)
| VList (items : list pyval)
| VDict (entries : list (string * pyval)).

Inductive exn : Type :=
| TypeError
| KeyError
| IndexError
| AttributeError
| ValueError
| RecursionError
| UnicodeEncodeError
| JSONDecodeError
| RequestException (cause : string)
| SystemExit (code : Z)
| OtherError (name : string).

Inductive result (A : Type) : Type :=
| Return (a : A)
| Raise (e : exn).
Arguments Return {A} a.
Arguments Raise {A} e.

Definition rbind {A B} (r : result A) (k : A -> result B) : result B :=
  match r with
  | Return a => k a
  | Raise e => Raise e
  end.

(** [bool(v)]: the truth value Python gives to [v]. *)
Definition truthy (v : pyval) : bool :=
  match v with
  | VNone => false
  | VBool b => b
  | VInt z => negb (z =? 0)%Z
  | VFloat (S754_zero _) => false
  | VFloat _ => true
  | VStr s => negb (s =? "")
  | VList items => match items with [] => false | _ => true end
  | VDict entries => match entries with [] => false | _ => true end
  end.

(** Lookup of a key among the entries of a dictionary. *)
Fixpoint lookup (entries : list (string * pyval)) (key : string) : option pyval :=
  match entries with
  | [] => None
  | (k, v) :: rest => if k =? key then Some v else lookup rest key
  end.

(** [d.get(key, default)]: only a dictionary has the method. *)
Definition get (d : pyval) (key : string) (default : pyval) : result pyval :=
  match d with
  | VDict entries =>
      Return (match lookup entries key with Some v => v | None => default end)
  | _ => Raise AttributeError
  end.

(** [d[key]] for a string [key]. *)
Definition getitem (d : pyval) (key : string) : result pyval :=
  match d with
  | VDict entries =>
      match lookup entries key with Some v => Return v | None => Raise KeyError end
  | _ => Raise TypeError
  end.

(** [c[idx]] for an index [idx >= 0]. *)
Definition index (c : pyval) (idx : nat) : result pyval :=
  match c with
  | VList items =>
      match nth_error items idx with Some v => Return v | None => Raise IndexError end
  | VStr s =>
      match String.get idx s with
      | Some ch => Return (VStr (String ch EmptyString))
      | None => Raise IndexError
      end
  | VDict _ => Raise KeyError
  | _ => Raise TypeError
  end.

(** [len(c)]. *)
Definition len (c : pyval) : result nat :=
  match c with
  | VList items => Return (List.length items)
  | VStr s => Return (String.length s)
  | VDict entries => Return (List.length entries)
  | _ => Raise TypeError
  end.

(** [k < f] for an integer and a float, compared exactly. *)
Definition Z_lt_float (k : Z) (f : spec_float) : bool :=
  match f with
  | S754_nan => false
  | S754_infinity neg => negb neg
  | S754_zero _ => (k <? 0)%Z
  | S754_finite neg m e =>
      let v := if neg then Z.neg m else Z.pos m in
      if (0 <=? e)%Z then (k <? v * 2 ^ e)%Z else (k * 2 ^ (- e) <? v)%Z
  end.

(** [k < x] where [k] is an [int]: defined against numbers only ([bool] is a
    subclass of [int]); anything else is not ordered with an [int]. *)
Definition int_lt (k : Z) (x : pyval) : result bool :=
  match x with
  | VInt z => Return (k <? z)%Z
  | VBool b => Return (k <? Z.b2z b)%Z
  | VFloat f => Return (Z_lt_float k f)
  | _ => Raise TypeError
  end.

(** [min(x, k)] with [k] an [int]: the second argument wins only when it is
    strictly smaller. *)
Definition min_with_int (x : pyval) (k : Z) : result pyval :=
  rbind (int_lt k x) (fun smaller => Return (if smaller then VInt k else x)).

(** [max(k, x)] with [k] an [int]: the second argument wins only when it is
    strictly greater. *)
Definition max_with_int (k : Z) (x : pyval) : result pyval :=
  rbind (int_lt k x) (fun greater => Return (if greater then x else VInt k)).

(** The number of iterations of [for idx in range(x)]. *)
Definition range (x : pyval) : result nat :=
  match x with
  | VInt z => Return (Z.to_nat z)
  | VBool b => Return (Z.to_nat (Z.b2z b))
  | _ => Raise TypeError
  end.

End Py.
Export Py.

(** ** The network *)

Module Http.

(** [requests.get(url, params=..., timeout=10)]. *)
Record request : Type := {
  url : string;
  params : list (string * pyval);
  timeout : Z
}.

(** What the three statements [resp = requests.get(...)],
    [resp.raise_for_status()] and [resp.json()] come to: the decoded body; a
    [requests.RequestException] (connection failure, timeout, non-success
    status, and with requests 2.27 or later an undecodable body) whose text
    is [cause]; or an exception of another class that one of the three lets
    out - a [ValueError] for an integer too long to convert, a
    [RecursionError] for a body nested too deep, a [UnicodeEncodeError] for
    a parameter that cannot be encoded. *)
Inductive outcome : Type :=
| Body (json : pyval)
| Failed (cause : string)
| Escaped (e : exn).

(** The providers answer the n-th request of the session as they like; the
    requests performed are recorded in order. *)
Record net : Type := {
  http : request -> nat -> outcome;
  sent : list request
}.

End Http.
Export Http.

(** Computations that talk to the network and may raise. *)
Definition N (A : Type) : Type := net -> result A * net.

Definition ret {A} (a : A) : N A := fun w => (Return a, w).

Definition raise {A} (e : exn) : N A := fun w => (Raise e, w).

Definition bind {A B} (m : N A) (k : A -> N B) : N B :=
  fun w =>
    match m w with
    | (Return a, w') => k a w'
    | (Raise e, w') => (Raise e, w')
    end.

Definition lift {A} (r : result A) : N A := fun w => (r, w).

Notation "x <- m ;; k" := (bind m (fun x => k))
  (at level 61, m at next level, right associativity).
Notation "' pat <- m ;; k" := (bind m (fun x => match x with pat => k end))
  (at level 61, pat pattern, m at next level, right associativity).

(** [try: body  except requests.RequestException as exc: handler(str(exc))]. *)
Definition try_except_RequestException {A} (body : N A) (handler : string -> N A) : N A :=
  fun w =>
    match body w with
    | (Raise (RequestException exc), w') => handler exc w'
    | other => other
    end.

(** One GET with its status check and the decoding of its body. *)
Definition requests_get_json (u : string) (ps : list (string * pyval)) : N pyval :=
  fun w =>
    let req := {| url := u; params := ps; timeout := 10 |} in
    let w' := {| http := http w; sent := sent w ++ [req] |} in
    match http w req (List.length (sent w)) with
    | Body json => (Return json, w')
    | Failed cause => (Raise (RequestException cause), w')
    | Escaped e => (Raise e, w')
    end.

(** The body of [for idx in range(n): samples.append(sample(idx))], from
    index [idx] on. *)
Fixpoint for_range (n idx : nat) (sample : nat -> result pyval) (samples : list pyval)
  : result (list pyval) :=
  match n with
  | O => Return samples
  | S n' =>
      rbind (sample idx) (fun s => for_range n' (S idx) sample (samples ++ [s]))
  end.

(** ** The weather-window tool *)

Definition geocoding_url : string := "https://geocoding-api.open-meteo.com/v1/search".
Definition forecast_url : string := "https://api.open-meteo.com/v1/forecast".

Definition geocoding_params (city : pyval) : list (string * pyval) :=
  [("name", city); ("count", VInt 1); ("language", VStr "en"); ("format", VStr "json")].

Definition forecast_params (latitude longitude : pyval) : list (string * pyval) :=
  [("latitude", latitude); ("longitude", longitude);
   ("hourly", VStr "temperature_2m,precipitation_probability");
   ("forecast_days", VInt 1); ("timezone", VStr "auto")].

(** [hours = max(1, min(hours, 24))]. *)
Definition clamp_hours (hours : pyval) : result pyval :=
  rbind (min_with_int hours 24) (max_with_int 1).

(** [range(min(hours, len(times)))]: the length is taken first, it wins when
    strictly smaller, and [range] wants an integer. *)
Definition window_range (hours times : pyval) : result nat :=
  rbind (len times) (fun n =>
  rbind (int_lt (Z.of_nat n) hours) (fun shorter =>
  range (if shorter then VInt (Z.of_nat n) else hours))).

(** [values[idx] if idx < len(values) else None]. *)
Definition item_or_None (values : pyval) (idx : nat) : result pyval :=
  rbind (len values) (fun n =>
  if Nat.ltb idx n then index values idx else Return VNone).

(** The dictionary appended for index [idx]. *)
Definition sample_at (times temps precip : pyval) (idx : nat) : result pyval :=
  rbind (index times idx) (fun time =>
  rbind (item_or_None temps idx) (fun temperature =>
  rbind (item_or_None precip idx) (fun precipitation =>
  Return (VDict [("time", time);
                 ("temperature_c", temperature);
                 ("precipitation_probability", precipitation)])))).

(** A [try] block either returns from the function or falls through with the
    variables it bound. *)
Inductive flow (A : Type) : Type :=
| Returned (value : pyval)
| Bound (vars : A).
Arguments Returned {A} value.
Arguments Bound {A} vars.

(** The function takes whatever the caller passes for its two parameters;
    the default [hours = 12] is supplied where the call binds its arguments
    (see [call_fetch_weather_window]). *)
Definition fetch_weather_window (city hours : pyval) : N pyval :=
  hours <- lift (clamp_hours hours) ;;
  located <-
    try_except_RequestException
      (geo_json <- requests_get_json geocoding_url (geocoding_params city) ;;
       results <- lift (get geo_json "results" VNone) ;;
       if negb (truthy results) then
         ret (Returned (VDict [("city", city); ("error", VStr "No geocoding match")]))
       else
         results <- lift (getitem geo_json "results") ;;
         result <- lift (index results 0) ;;
         latitude <- lift (getitem result "latitude") ;;
         longitude <- lift (getitem result "longitude") ;;
         ret (Bound (latitude, longitude)))
      (fun exc =>
         ret (Returned (VDict [("city", city);
                               ("error", VStr ("Geocoding failed: " ++ exc))]))) ;;
  match located with
  | Returned value => ret value
  | Bound (latitude, longitude) =>
      fetched <-
        try_except_RequestException
          (data <- requests_get_json forecast_url (forecast_params latitude longitude) ;;
           ret (Bound data))
          (fun exc =>
             ret (Returned (VDict [("city", city);
                                   ("error", VStr ("Forecast fetch failed: " ++ exc))]))) ;;
      match fetched with
      | Returned value => ret value
      | Bound data =>
          hourly <- lift (get data "hourly" (VDict [])) ;;
          times <- lift (get hourly "time" (VList [])) ;;
          temps <- lift (get hourly "temperature_2m" (VList [])) ;;
          precip <- lift (get hourly "precipitation_probability" (VList [])) ;;
          n <- lift (window_range hours times) ;;
          samples <- lift (for_range n 0 (sample_at times temps precip) []) ;;
          ret (VDict [("city", city);
                      ("latitude", latitude);
                      ("longitude", longitude);
                      ("window_hours", VInt (Z.of_nat (List.length samples)));
                      ("samples", VList samples)])
      end
  end.

(** The registry sent to the model with every completion request. *)
Definition TOOLS : pyval :=
  VList
    [VDict
       [("type", VStr "function");
        ("function",
         VDict
           [("name", VStr "fetch_weather_window");
            ("description",
             VStr "Query Open-Meteo for upcoming hourly temperature and precipitation chances.");
            ("parameters",
             VDict
               [("type", VStr "object");
                ("properties",
                 VDict
                   [("city", VDict [("type", VStr "string")]);
                    ("hours",
                     VDict [("type", VStr "integer"); ("minimum", VInt 1);
                            ("maximum", VInt 24); ("default", VInt 12)])]);
                ("required", VList [VStr "city"])])])]].

(** ** Text *)

(** [ch.isspace()] on the code points below 256: the ASCII white space, the
    separators FS, GS, RS and US, NEL and the no-break space. *)
Definition isspace (ch : ascii) : bool :=
  let c := nat_of_ascii ch in
  ((9 <=? c) && (c <=? 13) || (28 <=? c) && (c <=? 32)
   || (c =? 133) || (c =? 160))%nat.

Fixpoint lstrip (s : string) : string :=
  match s with
  | EmptyString => EmptyString
  | String ch rest => if isspace ch then lstrip rest else s
  end.

Fixpoint rstrip (s : string) : string :=
  match s with
  | EmptyString => EmptyString
  | String ch rest =>
      match rstrip rest with
      | EmptyString => if isspace ch then EmptyString else String ch EmptyString
      | kept => String ch kept
      end
  end.

(** [s.strip()]. *)
Definition strip (s : string) : string := rstrip (lstrip s).

(** [ch.lower()] on the code points below 256: A-Z and the accented capitals
    (the multiplication sign between them has no case). *)
Definition lower_char (ch : ascii) : ascii :=
  let c := nat_of_ascii ch in
  if ((65 <=? c) && (c <=? 90)
      || (192 <=? c) && (c <=? 222) && negb (c =? 215))%nat
  then ascii_of_nat (c + 32) else ch.

(** [s.lower()]. *)
Fixpoint lower (s : string) : string :=
  match s with
  | EmptyString => EmptyString
  | String ch rest => String (lower_char ch) (lower rest)
  end.

(** ["-" * n]. *)
Fixpoint dashes (n : nat) : string :=
  match n with
  | O => EmptyString
  | S n' => String "-"%char (dashes n')
  end.

(** ** The JSON codec *)

(** [json.loads] on a string decodes a value or raises: [JSONDecodeError]
    for a text that is no JSON, and exceptions of other classes besides - a
    [ValueError] for an integer of more digits than the interpreter
    converts, a [RecursionError] for a text nested too deep.  [json.dumps]
    renders a value; the loop applies it to values that were decoded from
    JSON or built from strings, which it renders without exception. *)
Class Json : Type := {
  json_loads : string -> result pyval;
  json_dumps : pyval -> string
}.

(** ** The objects of the chat-completion client *)

Module Sdk.

Record function_call : Type := { name : string; arguments : string }.

Record tool_call : Type := { id : string; function : function_call }.

(** [response.choices[0].message]. *)
Record chat_message : Type := {
  content : pyval;
  tool_calls : option (list tool_call)
}.

(** [client.chat.completions.create(...)] answers or raises. *)
Inductive completion : Type :=
| Reply (message : chat_message)
| ApiError (e : exn).

End Sdk.

(** ** The transcript *)

Module Msg.

Record function_dict : Type := { name : string; arguments : string }.

Record tool_call_dict : Type := {
  id : string;
  type : string;
  function : function_dict
}.

(** A message dictionary; a key the dictionary lacks is [None]. *)
Record message : Type := {
  role : string;
  content : pyval;
  tool_calls : option (list tool_call_dict);
  tool_call_id : option string
}.

End Msg.

(** ** The tool dispatcher *)

Section Dispatcher.

Context {codec : Json}.

(** [json.loads(raw)] under [except json.JSONDecodeError: return {}]: the
    handler catches that class alone, whatever else [json.loads] raises
    goes on to the caller. *)
Definition parse_arguments (raw : string) : result pyval :=
  match json_loads raw with
  | Return value => Return value
  | Raise JSONDecodeError => Return (VDict [])
  | Raise e => Raise e
  end.

(** The call of [fetch_weather_window] with [args] unpacked as keyword
    arguments: [args] must be a mapping, every key must name a parameter,
    [city] must be given and [hours] defaults to 12. *)
Definition call_fetch_weather_window (args : pyval) : N pyval :=
  match args with
  | VDict entries =>
      if forallb (fun kv => (fst kv =? "city") || (fst kv =? "hours")) entries then
        match lookup entries "city" with
        | Some city =>
            fetch_weather_window city
              (match lookup entries "hours" with Some hours => hours | None => VInt 12 end)
        | None => raise TypeError
        end
      else raise TypeError
  | _ => raise TypeError
  end.

Definition handle_tool_call (tool_call : Sdk.tool_call) : N pyval :=
  let name := Sdk.name (Sdk.function tool_call) in
  args <- lift (parse_arguments (Sdk.arguments (Sdk.function tool_call))) ;;
  if name =? "fetch_weather_window" then call_fetch_weather_window args
  else ret (VDict [("error", VStr ("Unknown tool " ++ name))]).

End Dispatcher.

(** ** The conversation loop *)

Definition ENV_FILE : string := ".env".
Definition GPT_4O_MINI : string := "gpt-4o-mini".
Definition SYSTEM_MESSAGE : string :=
  "You are Tour Assistant, a collaborative travel planner. "
  ++ "Lean on the available weather tool whenever the user shares a location, "
  ++ "and respond with concise, engaging guidance tailored to their plans.".

(** What the process writes: a [print]ed line, or the prompt of [input]. *)
Inductive output : Type :=
| Printed (line : string)
| Prompted (text : string).

(** The environment variables the script reads. *)
Record environ : Type := { API_KEY : option string; BASE_URL : option string }.

Record client : Type := { api_key : string; base_url : option string }.

(** The variable [messages], the console and the network. *)
Record state : Type := {
  messages : list Msg.message;
  stdout : list output;
  network : net
}.

Definition print (line : string) (st : state) : state :=
  {| messages := messages st; stdout := stdout st ++ [Printed line]; network := network st |}.

Definition prompt (text : string) (st : state) : state :=
  {| messages := messages st; stdout := stdout st ++ [Prompted text]; network := network st |}.

(** [messages.append(m)]. *)
Definition append (m : Msg.message) (st : state) : state :=
  {| messages := messages st ++ [m]; stdout := stdout st; network := network st |}.

(** [messages = ms]. *)
Definition assign (ms : list Msg.message) (st : state) : state :=
  {| messages := ms; stdout := stdout st; network := network st |}.

Definition on_network {A} (m : N A) (st : state) : result A * state :=
  let (r, w) := m (network st) in
  (r, {| messages := messages st; stdout := stdout st; network := w |}).

Definition require_api_key (env : environ) (st : state) : result string * state :=
  match API_KEY env with
  | Some key =>
      if key =? "" then
        (Raise (SystemExit 1),
         print "Missing API_KEY. Set it in your environment or .env file." st)
      else (Return key, st)
  | None =>
      (Raise (SystemExit 1),
       print "Missing API_KEY. Set it in your environment or .env file." st)
  end.

Definition create_client (env : environ) (st : state) : result client * state :=
  match require_api_key env st with
  | (Return key, st') =>
      match BASE_URL env with
      | Some u =>
          if u =? "" then (Return {| api_key := key; base_url := None |}, st')
          else (Return {| api_key := key; base_url := Some u |}, st')
      | None => (Return {| api_key := key; base_url := None |}, st')
      end
  | (Raise e, st') => (Raise e, st')
  end.

(** The chunk a content part contributes, if it is a dictionary tagged as
    text. *)
Definition text_chunk (part : pyval) : option pyval :=
  match part with
  | VDict entries =>
      match lookup entries "type" with
      | Some (VStr tag) =>
          if tag =? "text" then
            Some (match lookup entries "text" with Some t => t | None => VStr "" end)
          else None
      | _ => None
      end
  | _ => None
  end.

Fixpoint collect_chunks (payload : list pyval) : list pyval :=
  match payload with
  | [] => []
  | part :: rest =>
      match text_chunk part with
      | Some chunk => chunk :: collect_chunks rest
      | None => collect_chunks rest
      end
  end.

(** ["".join(chunks)]: every chunk must be a string. *)
Fixpoint join (chunks : list pyval) : result string :=
  match chunks with
  | [] => Return ""
  | VStr s :: rest => rbind (join rest) (fun joined => Return (s ++ joined)%string)
  | _ :: _ => Raise TypeError
  end.

Definition extract_text (payload : pyval) : result string :=
  match payload with
  | VStr s => Return s
  | VList parts => join (collect_chunks parts)
  | _ => Return ""
  end.

Definition print_response (text : string) (st : state) : state :=
  let divider := dashes 60 in
  print divider (print (strip text) (print divider st)).

Definition system_message : Msg.message :=
  {| Msg.role := "system"; Msg.content := VStr SYSTEM_MESSAGE;
     Msg.tool_calls := None; Msg.tool_call_id := None |}.

Definition user_message (user_text : string) : Msg.message :=
  {| Msg.role := "user"; Msg.content := VStr user_text;
     Msg.tool_calls := None; Msg.tool_call_id := None |}.

(** The entry kept in the transcript for one request of the reply. *)
Definition call_dict (call : Sdk.tool_call) : Msg.tool_call_dict :=
  {| Msg.id := Sdk.id call;
     Msg.type := "function";
     Msg.function := {| Msg.name := Sdk.name (Sdk.function call);
                        Msg.arguments := Sdk.arguments (Sdk.function call) |} |}.

Definition requests_message (message : Sdk.chat_message) (calls : list Sdk.tool_call)
  : Msg.message :=
  {| Msg.role := "assistant"; Msg.content := Sdk.content message;
     Msg.tool_calls := Some (map call_dict calls); Msg.tool_call_id := None |}.

Definition tool_message (call_id content : string) : Msg.message :=
  {| Msg.role := "tool"; Msg.content := VStr content;
     Msg.tool_calls := None; Msg.tool_call_id := Some call_id |}.

Definition narrative_message (assistant_text : string) : Msg.message :=
  {| Msg.role := "assistant"; Msg.content := VStr assistant_text;
     Msg.tool_calls := None; Msg.tool_call_id := None |}.

Definition NO_NARRATIVE : string := "Assistant returned no narrative.".

(** How a loop is left: by [break] (or by falling off the script of console
    lines), by an exception, or not yet - the script of replies ran out while
    the loop was waiting for the endpoint. *)
Inductive ending : Type :=
| Completed
| Waiting
| Raised (e : exn).

Section Cli.

Context {codec : Json}.

(** [for tool_call in message.tool_calls: ...]. *)
Fixpoint for_tool_calls (calls : list Sdk.tool_call) (st : state) : result unit * state :=
  match calls with
  | [] => (Return tt, st)
  | tool_call :: rest =>
      match on_network (handle_tool_call tool_call) st with
      | (Return tool_result, st') =>
          for_tool_calls rest
            (append (tool_message (Sdk.id tool_call) (json_dumps tool_result)) st')
      | (Raise e, st') => (Raise e, st')
      end
  end.

(** The body of the inner loop once the reply is known; [true] stands for
    [continue] and [false] for [break]. *)
Definition model_round (message : Sdk.chat_message) (st : state) : result bool * state :=
  match Sdk.tool_calls message with
  | Some (call :: more) =>
      let calls := call :: more in
      match for_tool_calls calls (append (requests_message message calls) st) with
      | (Return _, st') => (Return true, st')
      | (Raise e, st') => (Raise e, st')
      end
  | _ =>
      match extract_text (Sdk.content message) with
      | Return assistant_text =>
          let printable :=
            if strip assistant_text =? "" then NO_NARRATIVE else strip assistant_text in
          (Return false, append (narrative_message assistant_text) (print_response printable st))
      | Raise e => (Raise e, st)
      end
  end.

(** The inner [while True]: one reply of the script per iteration. *)
Fixpoint model_loop (replies : list Sdk.completion) (st : state)
  : ending * list Sdk.completion * state :=
  match replies with
  | [] => (Waiting, [], st)
  | Sdk.ApiError e :: rest => (Raised e, rest, st)
  | Sdk.Reply message :: rest =>
      match model_round message st with
      | (Return true, st') => model_loop rest st'
      | (Return false, st') => (Completed, rest, st')
      | (Raise e, st') => (Raised e, rest, st')
      end
  end.

(** The outer [while True]: one console line per iteration; the end of the
    script is the end of the input. *)
Fixpoint user_loop (lines : list string) (replies : list Sdk.completion) (st : state)
  : ending * list Sdk.completion * state :=
  match lines with
  | [] =>
      (Completed, replies,
       print (String "010"%char "EOF received. Bye!") (prompt "You> " st))
  | line :: rest =>
      let st := prompt "You> " st in
      let user_text := strip line in
      if user_text =? "" then user_loop rest replies st
      else
        let lowered := lower user_text in
        if (lowered =? "/exit") || (lowered =? "/quit") then
          (Completed, replies, print "Bon voyage!" st)
        else if lowered =? "/reset" then
          user_loop rest replies (print "Conversation reset." (assign [system_message] st))
        else
          match model_loop replies (append (user_message user_text) st) with
          | (Completed, replies', st') => user_loop rest replies' st'
          | stopped => stopped
          end
  end.

(** The process starts with an empty console and no [messages] yet. *)
Definition boot (w : net) : state := {| messages := []; stdout := []; network := w |}.

Definition run_cli (env : environ) (lines : list string) (replies : list Sdk.completion)
    (w : net) : ending * list Sdk.completion * state :=
  match create_client env (boot w) with
  | (Return _, st) =>
      let st := assign [system_message] st in
      let st :=
        print "Tour Assistant chat ready. Type '/reset' to clear or '/exit' to quit." st in
      user_loop lines replies st
  | (Raise e, st) => (Raised e, replies, st)
  end.

End Cli.

(** ** Specification-side vocabulary *)

(** [clamp(x, lo, hi)] in the words of the specification: below the range the
    lower bound, above it the upper bound, inside it the value itself. *)
Definition clamp (x lo hi : Z) : Z :=
  if (x <? lo)%Z then lo else if (hi <? x)%Z then hi else x.

(** The two requests of one lookup. *)
Definition geocoding_request (city : pyval) : request :=
  {| url := geocoding_url; params := geocoding_params city; timeout := 10 |}.

Definition forecast_request (latitude longitude : pyval) : request :=
  {| url := forecast_url; params := forecast_params latitude longitude; timeout := 10 |}.

(** The network after the requests [reqs] have been performed. *)
Definition after (w : net) (reqs : list request) : net :=
  {| http := http w; sent := sent w ++ reqs |}.

(** The array a forecast carries under [key]; an absent key is the empty
    array, and a value that is no array is no forecast series. *)
Definition array_at (entries : list (string * pyval)) (key : string) : option (list pyval) :=
  match lookup entries key with
  | None => Some []
  | Some (VList items) => Some items
  | Some _ => None
  end.

(** The [hourly] object of a forecast body; an absent key is the empty
    object. *)
Definition hourly_of (data : list (string * pyval)) : option (list (string * pyval)) :=
  match lookup data "hourly" with
  | None => Some []
  | Some (VDict hourly) => Some hourly
  | Some _ => None
  end.

(** The sample the specification describes for position [idx]: the three
    arrays zipped positionally, null where a parallel array is too short. *)
Definition zipped_sample (times temps precip : list pyval) (idx : nat) : pyval :=
  VDict [("time", nth idx times VNone);
         ("temperature_c",
          if Nat.ltb idx (List.length temps) then nth idx temps VNone else VNone);
         ("precipitation_probability",
          if Nat.ltb idx (List.length precip) then nth idx precip VNone else VNone)].

(** The first [n] zipped samples. *)
Definition zipped_window (n : nat) (times temps precip : list pyval) : list pyval :=
  map (zipped_sample times temps precip) (seq 0 n).

(** The coordinates of the best match of a geocoding body, when its
    [results] entry is a list whose first element is an object carrying them. *)
Definition first_match (geo : pyval) : option (pyval * pyval) :=
  match geo with
  | VDict entries =>
      match lookup entries "results" with
      | Some (VList (VDict first :: _)) =>
          match lookup first "latitude", lookup first "longitude" with
          | Some latitude, Some longitude => Some (latitude, longitude)
          | _, _ => None
          end
      | _ => None
      end
  | _ => None
  end.

(** A geocoding body reports zero matches when it is an object whose
    [results] entry is absent or holds nothing (an empty list, null, or any
    other value Python takes for false). *)
Definition zero_matches (geo : pyval) : bool :=
  match geo with
  | VDict entries =>
      match lookup entries "results" with
      | Some results => negb (truthy results)
      | None => true
      end
  | _ => false
  end.

(** The geocoding provider fails the request, reports zero matches, or names
    a best match with its coordinates. *)
Definition geocoding_answer_ok (o : outcome) : bool :=
  match o with
  | Failed _ => true
  | Body geo => zero_matches geo || match first_match geo with Some _ => true | None => false end
  | Escaped _ => false
  end.

(** The forecast provider fails the request or answers with an object whose
    [hourly] series, where present, are arrays. *)
Definition forecast_answer_ok (o : outcome) : bool :=
  match o with
  | Failed _ => true
  | Body (VDict data) =>
      match hourly_of data with
      | Some hourly =>
          match array_at hourly "time", array_at hourly "temperature_2m",
                array_at hourly "precipitation_probability" with
          | Some _, Some _, Some _ => true
          | _, _, _ => false
          end
      | None => false
      end
  | Body _ => false
  | Escaped _ => false
  end.

(** Both providers keep to these shapes during the lookup of [city]. *)
Definition providers_well_behaved (city : pyval) (w : net) : bool :=
  let o := http w (geocoding_request city) (List.length (sent w)) in
  geocoding_answer_ok o
  && match o with
     | Failed _ | Escaped _ => true
     | Body geo =>
         if zero_matches geo then true
         else
           match first_match geo with
           | Some (latitude, longitude) =>
               forecast_answer_ok
                 (http w (forecast_request latitude longitude) (S (List.length (sent w))))
           | None => true
           end
     end.

(** The failure the specification expects in the [error] field, if any. *)
Definition reported_failure (city : pyval) (w : net) : option string :=
  match http w (geocoding_request city) (List.length (sent w)) with
  | Failed cause => Some ("Geocoding failed: " ++ cause)%string
  | Body geo =>
      if zero_matches geo then Some "No geocoding match"
      else
        match first_match geo with
        | Some (latitude, longitude) =>
            match http w (forecast_request latitude longitude) (S (List.length (sent w))) with
            | Failed cause => Some ("Forecast fetch failed: " ++ cause)%string
            | Body _ | Escaped _ => None
            end
        | None => None
        end
  | Escaped _ => None
  end.

(** ** Sample providers, used to run the model *)

(** 21.0 and 105.75 as binary64 numbers. *)
Definition hanoi_latitude : pyval := VFloat (S754_finite false 5910974510923776 (-48)).
Definition hanoi_longitude : pyval := VFloat (S754_finite false 7441494696787968 (-46)).

Definition hanoi_match : pyval :=
  VDict [("results",
          VList [VDict [("name", VStr "Hanoi");
                        ("latitude", hanoi_latitude);
                        ("longitude", hanoi_longitude)]])].

(** A network whose geocoding provider answers [geo] and whose forecast
    provider answers [forecast], whenever asked. *)
Definition providers (geo forecast : outcome) : net :=
  {| http := fun req _ => if url req =? geocoding_url then geo else forecast;
     sent := [] |}.

(** Five timestamps, three temperatures and no precipitation series. *)
Definition short_forecast : pyval :=
  VDict [("hourly",
          VDict [("time", VList [VStr "2024-05-01T00:00"; VStr "2024-05-01T01:00";
                                 VStr "2024-05-01T02:00"; VStr "2024-05-01T03:00";
                                 VStr "2024-05-01T04:00"]);
                 ("temperature_2m", VList [VInt 27; VInt 26; VInt 26])])].

(** A match that lacks its coordinates. *)
Definition match_without_coordinates : pyval :=
  VDict [("results", VList [VDict [("name", VStr "Hanoi")]])].

(** A forecast whose only timestamp is null. *)
Definition null_timestamp_forecast : pyval :=
  VDict [("hourly", VDict [("time", VList [VNone]); ("temperature_2m", VList [VInt 27])])].

(** ** A sample codec, used to run the model *)

Definition quote : string := String (ascii_of_nat 34) EmptyString.

(** The argument text of a well-formed request for Hanoi, 30 hours. *)
Definition hanoi_arguments : string :=
  "{" ++ quote ++ "city" ++ quote ++ ": " ++ quote ++ "Hanoi" ++ quote ++ ", "
  ++ quote ++ "hours" ++ quote ++ ": 30}".

(** [ch * n]. *)
Fixpoint times_char (ch : ascii) (n : nat) : string :=
  match n with
  | O => EmptyString
  | S n' => String ch (times_char ch n')
  end.

(** An integer of 4301 digits, one more than the interpreter converts. *)
Definition overlong_integer : string := times_char "1" 4301.

(** A decoder for the texts used below: the empty object, the Hanoi request,
    the overlong integer, and texts that are no JSON. *)
Definition sample_loads (raw : string) : result pyval :=
  if raw =? "{}" then Return (VDict [])
  else if raw =? hanoi_arguments then
    Return (VDict [("city", VStr "Hanoi"); ("hours", VInt 30)])
  else if raw =? overlong_integer then Raise ValueError
  else Raise JSONDecodeError.

(** A renderer for the error mappings of the dispatcher. *)
Definition sample_dumps (value : pyval) : string :=
  match value with
  | VDict [(key, VStr text)] =>
      "{" ++ quote ++ key ++ quote ++ ": " ++ quote ++ text ++ quote ++ "}"
  | _ => "{}"
  end.

Definition sample_codec : Json :=
  {| json_loads := sample_loads; json_dumps := sample_dumps |}.

(** Requests of the model: an unknown tool, the weather tool with arguments
    that are no JSON, and the weather tool with well-formed arguments. *)
Definition unknown_tool_call : Sdk.tool_call :=
  {| Sdk.id := "call_1";
     Sdk.function := {| Sdk.name := "book_flight"; Sdk.arguments := "{}" |} |}.

Definition undecodable_weather_call : Sdk.tool_call :=
  {| Sdk.id := "call_2";
     Sdk.function := {| Sdk.name := "fetch_weather_window"; Sdk.arguments := "{city" |} |}.

Definition hanoi_weather_call : Sdk.tool_call :=
  {| Sdk.id := "call_3";
     Sdk.function := {| Sdk.name := "fetch_weather_window";
                        Sdk.arguments := hanoi_arguments |} |}.

(** A request for an unknown tool whose arguments hold the overlong
    integer. *)
Definition overlong_unknown_call : Sdk.tool_call :=
  {| Sdk.id := "call_6";
     Sdk.function := {| Sdk.name := "book_flight"; Sdk.arguments := overlong_integer |} |}.

(** ** The vocabulary of the claims about the loop *)

(** A line that holds white space only. *)
Fixpoint all_space (s : string) : bool :=
  match s with
  | EmptyString => true
  | String ch rest => isspace ch && all_space rest
  end.

(** A text that does not begin with white space. *)
Definition begins_clean (s : string) : Prop :=
  match s with
  | EmptyString => True
  | String ch _ => isspace ch = false
  end.

(** The line is one of the commands once stripped and lowered. *)
Definition is_command (line : string) : bool :=
  let lowered := lower (strip line) in
  (lowered =? "/exit") || (lowered =? "/quit") || (lowered =? "/reset").

(** The ids of the requests an assistant message carries. *)
Definition call_ids (m : Msg.message) : list string :=
  match Msg.tool_calls m with
  | Some calls => map Msg.id calls
  | None => []
  end.

(** The requests a tool result may answer after [m]: a tool result leaves
    them as they are, an assistant message opens its own requests, any other
    message closes them. *)
Definition pending_after (pending : list string) (m : Msg.message) : list string :=
  if Msg.role m =? "tool" then pending
  else if Msg.role m =? "assistant" then call_ids m
  else [].

(** Every tool result of [transcript] answers a pending request, [pending]
    being the requests open in front of it. *)
Fixpoint well_answered (pending : list string) (transcript : list Msg.message) : bool :=
  match transcript with
  | [] => true
  | m :: rest =>
      (if Msg.role m =? "tool" then
         match Msg.tool_call_id m with
         | Some call_id => existsb (String.eqb call_id) pending
         | None => false
         end
       else true)
      && well_answered (pending_after pending m) rest
  end.

(** The invariant of the data model, read off the transcript: every tool
    result is preceded by an assistant message, with nothing but tool results
    in between, that carries a request with the result's [tool_call_id]. *)
Definition answers_preceding_request (transcript : list Msg.message) : Prop :=
  forall before m behind,
    transcript = before ++ m :: behind ->
    Msg.role m = "tool" ->
    exists earlier assistant results call_id,
      before = earlier ++ assistant :: results
      /\ Msg.role assistant = "assistant"
      /\ Forall (fun r => Msg.role r = "tool") results
      /\ Msg.tool_call_id m = Some call_id
      /\ In call_id (call_ids assistant).

(** The requests open at the end of a transcript. *)
Definition open_requests (transcript : list Msg.message) : list string :=
  fold_left pending_after transcript [].

(** The tool result the loop appends for a request and the dispatcher's
    answer to it. *)
Definition answer_message {codec : Json} (answered : Sdk.tool_call * pyval) : Msg.message :=
  {| Msg.role := "tool"; Msg.content := VStr (json_dumps (snd answered));
     Msg.tool_calls := None; Msg.tool_call_id := Some (Sdk.id (fst answered)) |}.

(** The requests of one reply answered one after the other, each on the
    network the one before it left; [None] when an answer is an exception. *)
Fixpoint dispatch_all {codec : Json} (calls : list Sdk.tool_call) (w : net)
  : option (list pyval * net) :=
  match calls with
  | [] => Some ([], w)
  | tool_call :: rest =>
      match handle_tool_call tool_call w with
      | (Return tool_result, w') =>
          match dispatch_all rest w' with
          | Some (results, w'') => Some (tool_result :: results, w'')
          | None => None
          end
      | (Raise _, _) => None
      end
  end.

(** ** A sample session, used to run the model *)

Definition second_unknown_tool_call : Sdk.tool_call :=
  {| Sdk.id := "call_4";
     Sdk.function := {| Sdk.name := "rent_car"; Sdk.arguments := "{city" |} |}.

(** A reply that asks for two tools, and the narrative that follows. *)
Definition tool_reply : Sdk.chat_message :=
  {| Sdk.content := VNone;
     Sdk.tool_calls := Some [unknown_tool_call; second_unknown_tool_call] |}.

Definition narrative_reply : Sdk.chat_message :=
  {| Sdk.content := VStr "I can only look up the weather."; Sdk.tool_calls := None |}.

(** A reply whose text is blank. *)
Definition blank_reply : Sdk.chat_message :=
  {| Sdk.content := VList [VDict [("type", VStr "text"); ("text", VStr "  ")]];
     Sdk.tool_calls := Some [] |}.

Definition quiet_net : net := providers (Failed "unused") (Failed "unused").

(** The state of the loop in front of its first prompt. *)
Definition ready : state :=
  {| messages := [system_message]; stdout := []; network := quiet_net |}.

(** The state in front of the first prompt when the geocoding provider
    answers with a match that has no coordinates. *)
Definition ready_without_coordinates : state :=
  {| messages := [system_message]; stdout := [];
     network := providers (Body match_without_coordinates) (Body short_forecast) |}.

(** ** The vocabulary of the further properties *)

(** The values [min] and [max] can order against an [int]. *)
Definition is_number (v : pyval) : bool :=
  match v with
  | VInt _ | VBool _ | VFloat _ => true
  | _ => false
  end.

(** A first match that carries its latitude only. *)
Definition match_without_longitude : pyval :=
  VDict [("results", VList [VDict [("latitude", hanoi_latitude)]])].

(** A forecast whose [hourly] object has no [time] series, and a null where
    the temperatures should be. *)
Definition forecast_without_time : pyval :=
  VDict [("hourly", VDict [("temperature_2m", VNone)])].

(** The decoded arguments suit the parameters of the weather tool: a mapping
    whose keys are among [city] and [hours] and that binds [city]. *)
Definition binds_parameters (args : pyval) : bool :=
  match args with
  | VDict entries =>
      forallb (fun kv => (fst kv =? "city") || (fst kv =? "hours")) entries
      && match lookup entries "city" with Some _ => true | None => false end
  | _ => false
  end.

(** A content part that counts as text: a mapping whose [type] is the string
    [text]. *)
Definition is_text_part (part : pyval) : bool :=
  match part with
  | VDict entries =>
      match lookup entries "type" with
      | Some (VStr tag) => tag =? "text"
      | _ => false
      end
  | _ => false
  end.


(** A request for the weather tool with an empty argument object. *)
Definition empty_arguments_call : Sdk.tool_call :=
  {| Sdk.id := "call_5";
     Sdk.function := {| Sdk.name := "fetch_weather_window"; Sdk.arguments := "{}" |} |}.

(** Content in parts: two texts around an image. *)
Definition mixed_content : list pyval :=
  [VDict [("type", VStr "text"); ("text", VStr "Par")];
   VDict [("type", VStr "image_url"); ("image_url", VStr "https://example.org/a.png")];
   VDict [("type", VStr "text"); ("text", VStr "is")]].

(** What a message does to the requests still to be answered: while some are
    open, the next message must be the tool result for the first of them;
    when none is open, a tool result is out of place and any other message
    opens the requests it carries. *)
Definition expect (expected : list string) (m : Msg.message) : option (list string) :=
  if Msg.role m =? "tool" then
    match expected, Msg.tool_call_id m with
    | call_id :: more, Some answered => if answered =? call_id then Some more else None
    | _, _ => None
    end
  else
    match expected with
    | [] => Some (call_ids m)
    | _ :: _ => None
    end.

(** The requests left open by a transcript in which every request is
    answered once and in order, [None] for any other transcript. *)
Fixpoint answered_in_order (expected : list string) (transcript : list Msg.message)
  : option (list string) :=
  match transcript with
  | [] => Some expected
  | m :: rest =>
      match expect expected m with
      | Some expected' => answered_in_order expected' rest
      | None => None
      end
  end.

(** The requests for the weather tool among [calls], and in a script of
    replies. *)
Definition weather_requests (calls : list Sdk.tool_call) : nat :=
  List.length
    (filter (fun call => Sdk.name (Sdk.function call) =? "fetch_weather_window") calls).

Fixpoint requested (replies : list Sdk.completion) : nat :=
  match replies with
  | [] => 0
  | Sdk.Reply message :: rest =>
      match Sdk.tool_calls message with
      | Some calls => weather_requests calls + requested rest
      | None => requested rest
      end
  | Sdk.ApiError _ :: rest => requested rest
  end.

(** A reply that asks for the weather in Hanoi. *)
Definition weather_reply : Sdk.chat_message :=
  {| Sdk.content := VNone; Sdk.tool_calls := Some [hanoi_weather_call] |}.

(** The network of [st'] is the network of [st] after at most [n] further
    requests. *)
Definition grown_by (n : nat) (st st' : state) : Prop :=
  http (network st') = http (network st)
  /\ exists reqs,
       sent (network st') = sent (network st) ++ reqs /\ (List.length reqs <= n)%nat.

(** A transcript headed by the system message, the only message of that
    role. *)
Definition headed (transcript : list Msg.message) : Prop :=
  exists tail,
    transcript = system_message :: tail
    /\ Forall (fun m => Msg.role m <> "system") tail.

(** What a turn writes in front of its narrative: assistant messages that
    carry requests, and tool results. *)
Definition tool_round_message (m : Msg.message) : Prop :=
  Msg.role m = "tool"
  \/ (Msg.role m = "assistant"
      /\ exists call calls, Msg.tool_calls m = Some (call :: calls)).

(** Two states of the loop that differ at most in what has been printed. *)
Definition alike (st1 st2 : state) : Prop :=
  messages st1 = messages st2 /\ network st1 = network st2.

(** The line asks for the end of the session, or for a reset. *)
Definition is_exit (line : string) : bool :=
  (lower (strip line) =? "/exit") || (lower (strip line) =? "/quit").

Definition is_reset (line : string) : bool := lower (strip line) =? "/reset".

(** A line that starts a turn: not blank and no command. *)
Definition is_chat (line : string) : bool :=
  negb (strip line =? "") && negb (is_exit line) && negb (is_reset line).

(** Reading the registry: the value found by following [path] through
    nested mappings. *)
Fixpoint descend (v : pyval) (path : list string) : option pyval :=
  match path with
  | [] => Some v
  | key :: rest =>
      match v with
      | VDict entries =>
          match lookup entries key with
          | Some inner => descend inner rest
          | None => None
          end
      | _ => None
      end
  end.

(** The parameter schema the registry declares for its first tool. *)
Definition declared (path : list string) : option pyval :=
  match TOOLS with
  | VList (tool :: _) => descend tool ("function" :: "parameters" :: path)
  | _ => None
  end.

Definition declared_parameters : list string :=
  match declared ["properties"] with
  | Some (VDict properties) => map fst properties
  | _ => []
  end.

Definition declared_required : list string :=
  match declared ["required"] with
  | Some (VList names) =>
      flat_map (fun name => match name with VStr s => [s] | _ => [] end) names
  | _ => []
  end.

(** The arguments keep to the declared schema: every key is a declared
    parameter and every required parameter is given. *)
Definition keeps_to_schema (entries : list (string * pyval)) : bool :=
  forallb (fun kv => existsb (String.eqb (fst kv)) declared_parameters) entries
  && forallb (fun name => match lookup entries name with Some _ => true | None => false end)
       declared_required.

(** * Theorems *)

(** ** The input clamp *)

Lemma clamp_bounds (h : Z) : (1 <= clamp h 1 24 <= 24)%Z.
Proof.
  unfold clamp.
  destruct (Z.ltb_spec h 1); [lia|].
  destruct (Z.ltb_spec 24 h); lia.
Qed.

Lemma clamp_hours_int (h : Z) : clamp_hours (VInt h) = Return (VInt (clamp h 1 24)).
Proof.
  unfold clamp_hours, min_with_int, max_with_int, clamp; cbn.
  destruct (Z.ltb_spec 24 h) as [Hhi|Hhi]; cbn.
  - destruct (Z.ltb_spec h 1); [lia|reflexivity].
  - destruct (Z.ltb_spec 1 h) as [Hlo|Hlo]; cbn.
    + destruct (Z.ltb_spec h 1); [lia|reflexivity].
    + destruct (Z.ltb_spec h 1); [reflexivity|].
      f_equal. f_equal. lia.
Qed.


Lemma window_range_int (k : Z) (times : list pyval) :
  (0 <= k)%Z ->
  window_range (VInt k) (VList times) = Return (Nat.min (Z.to_nat k) (List.length times)).
Proof.
  intros Hk. unfold window_range; cbn.
  destruct (Z.ltb_spec (Z.of_nat (List.length times)) k); cbn; f_equal; lia.
Qed.

Example clamp_below : clamp_hours (VInt (-3)) = Return (VInt 1).
Proof. reflexivity. Qed.

Example clamp_inside : clamp_hours (VInt 7) = Return (VInt 7).
Proof. reflexivity. Qed.

Example clamp_above : clamp_hours (VInt 100) = Return (VInt 24).
Proof. reflexivity. Qed.

(** [hours = 2.5] passes the clamp as it is and is refused by [range] when
    the series is longer; [hours = "3"] is refused by [min]. *)
Example fractional_hours :
  clamp_hours (VFloat (S754_finite false 5 (-1))) = Return (VFloat (S754_finite false 5 (-1)))
  /\ window_range (VFloat (S754_finite false 5 (-1))) (VList [VNone; VNone; VNone])
     = Raise TypeError
  /\ window_range (VFloat (S754_finite false 5 (-1))) (VList [VNone; VNone]) = Return 2%nat
  /\ clamp_hours (VStr "3") = Raise TypeError.
Proof. repeat split. Qed.

(** ** Windowing *)

Lemma index_list (items : list pyval) (idx : nat) :
  (idx < List.length items)%nat -> index (VList items) idx = Return (nth idx items VNone).
Proof.
  intros Hlt. cbn.
  destruct (nth_error items idx) as [v|] eqn:Hnth.
  - f_equal. symmetry. now apply nth_error_nth.
  - apply nth_error_None in Hnth. lia.
Qed.

Lemma item_or_None_list (items : list pyval) (idx : nat) :
  item_or_None (VList items) idx
  = Return (if Nat.ltb idx (List.length items) then nth idx items VNone else VNone).
Proof.
  unfold item_or_None; cbn [len rbind].
  destruct (Nat.ltb_spec idx (List.length items)); [now apply index_list|reflexivity].
Qed.

Lemma sample_at_lists (times temps precip : list pyval) (idx : nat) :
  (idx < List.length times)%nat ->
  sample_at (VList times) (VList temps) (VList precip) idx
  = Return (zipped_sample times temps precip idx).
Proof.
  intros Hlt. unfold sample_at.
  rewrite (index_list _ _ Hlt), !item_or_None_list. reflexivity.
Qed.

Lemma for_range_lists (times temps precip : list pyval) (n : nat) :
  forall (idx : nat) (samples : list pyval),
    (idx + n <= List.length times)%nat ->
    for_range n idx (sample_at (VList times) (VList temps) (VList precip)) samples
    = Return (samples ++ map (zipped_sample times temps precip) (seq idx n)).
Proof.
  induction n as [|n IH]; intros idx samples Hle; cbn [for_range seq map].
  - now rewrite app_nil_r.
  - rewrite sample_at_lists by lia. cbn [rbind].
    rewrite IH by lia. now rewrite <- app_assoc.
Qed.

Lemma get_present (entries : list (string * pyval)) (key : string) (default v : pyval) :
  lookup entries key = Some v -> get (VDict entries) key default = Return v.
Proof. intros H. cbn. now rewrite H. Qed.

Lemma getitem_present (entries : list (string * pyval)) (key : string) (v : pyval) :
  lookup entries key = Some v -> getitem (VDict entries) key = Return v.
Proof. intros H. cbn. now rewrite H. Qed.

Lemma get_absent_or_dict (data : list (string * pyval)) (hourly : list (string * pyval)) :
  hourly_of data = Some hourly -> get (VDict data) "hourly" (VDict []) = Return (VDict hourly).
Proof.
  unfold hourly_of, get. destruct (lookup data "hourly") as [[]|]; congruence.
Qed.

Lemma get_absent_or_list (hourly : list (string * pyval)) (key : string) (items : list pyval) :
  array_at hourly key = Some items -> get (VDict hourly) key (VList []) = Return (VList items).
Proof.
  unfold array_at, get. destruct (lookup hourly key) as [[]|]; congruence.
Qed.

(** The run of [fetch_weather_window] when both providers answer with bodies
    of the documented shape. *)
Lemma fetch_weather_window_success (city : pyval) (h : Z) (w : net)
    (geo first : list (string * pyval)) (others : list pyval) (latitude longitude : pyval)
    (data hourly : list (string * pyval)) (times temps precip : list pyval) :
  http w (geocoding_request city) (List.length (sent w)) = Body (VDict geo) ->
  lookup geo "results" = Some (VList (VDict first :: others)) ->
  lookup first "latitude" = Some latitude ->
  lookup first "longitude" = Some longitude ->
  http w (forecast_request latitude longitude) (S (List.length (sent w))) = Body (VDict data) ->
  hourly_of data = Some hourly ->
  array_at hourly "time" = Some times ->
  array_at hourly "temperature_2m" = Some temps ->
  array_at hourly "precipitation_probability" = Some precip ->
  fetch_weather_window city (VInt h) w
  = (Return (VDict
       [("city", city); ("latitude", latitude); ("longitude", longitude);
        ("window_hours",
         VInt (Z.of_nat (Nat.min (Z.to_nat (clamp h 1 24)) (List.length times))));
        ("samples",
         VList (zipped_window (Nat.min (Z.to_nat (clamp h 1 24)) (List.length times))
                  times temps precip))]),
     after w [geocoding_request city; forecast_request latitude longitude]).
Proof.
  intros Hgeo Hres Hlat Hlon Hfc Hhourly Htimes Htemps Hprecip.
  unfold fetch_weather_window, bind at 1, lift at 1.
  rewrite clamp_hours_int.
  unfold bind at 1, try_except_RequestException at 1, bind at 1, requests_get_json at 1.
  fold (geocoding_request city). rewrite Hgeo.
  unfold bind, lift, ret.
  rewrite (get_present _ _ _ _ Hres). cbn [truthy negb].
  rewrite (getitem_present _ _ _ Hres). cbn [index nth_error].
  rewrite (getitem_present _ _ _ Hlat), (getitem_present _ _ _ Hlon).
  unfold try_except_RequestException, requests_get_json.
  cbn [sent http]. fold (forecast_request latitude longitude).
  rewrite length_app, Nat.add_1_r, Hfc.
  rewrite (get_absent_or_dict _ _ Hhourly).
  rewrite (get_absent_or_list _ _ _ Htimes), (get_absent_or_list _ _ _ Htemps),
    (get_absent_or_list _ _ _ Hprecip).
  rewrite window_range_int by (pose proof (clamp_bounds h); lia).
  rewrite for_range_lists by (cbn; apply Nat.le_min_r).
  cbn [app]. unfold zipped_window, after. rewrite length_map, length_seq, <- app_assoc.
  reflexivity.
Qed.

(** ** The failure paths of the tool *)

Lemma fetch_geocoding_failed (city : pyval) (h : Z) (w : net) (cause : string) :
  http w (geocoding_request city) (List.length (sent w)) = Failed cause ->
  fetch_weather_window city (VInt h) w
  = (Return (VDict [("city", city); ("error", VStr ("Geocoding failed: " ++ cause))]),
     after w [geocoding_request city]).
Proof.
  intros Hgeo.
  unfold fetch_weather_window, bind at 1, lift at 1.
  rewrite clamp_hours_int.
  unfold bind at 1, try_except_RequestException at 1, bind at 1, requests_get_json at 1.
  fold (geocoding_request city). rewrite Hgeo. reflexivity.
Qed.

Lemma fetch_no_match (city : pyval) (h : Z) (w : net) (geo : pyval) :
  http w (geocoding_request city) (List.length (sent w)) = Body geo ->
  zero_matches geo = true ->
  fetch_weather_window city (VInt h) w
  = (Return (VDict [("city", city); ("error", VStr "No geocoding match")]),
     after w [geocoding_request city]).
Proof.
  intros Hgeo Hzero.
  unfold fetch_weather_window, bind at 1, lift at 1.
  rewrite clamp_hours_int.
  unfold bind at 1, try_except_RequestException at 1, bind at 1, requests_get_json at 1.
  fold (geocoding_request city). rewrite Hgeo.
  destruct geo as [| | | | |?|entries]; try discriminate Hzero.
  unfold bind, lift, ret. cbn [get]. unfold zero_matches in Hzero.
  destruct (lookup entries "results") as [results|].
  - rewrite Hzero. reflexivity.
  - reflexivity.
Qed.

Lemma fetch_forecast_failed (city : pyval) (h : Z) (w : net)
    (geo first : list (string * pyval)) (others : list pyval) (latitude longitude : pyval)
    (cause : string) :
  http w (geocoding_request city) (List.length (sent w)) = Body (VDict geo) ->
  lookup geo "results" = Some (VList (VDict first :: others)) ->
  lookup first "latitude" = Some latitude ->
  lookup first "longitude" = Some longitude ->
  http w (forecast_request latitude longitude) (S (List.length (sent w))) = Failed cause ->
  fetch_weather_window city (VInt h) w
  = (Return (VDict [("city", city); ("error", VStr ("Forecast fetch failed: " ++ cause))]),
     after w [geocoding_request city; forecast_request latitude longitude]).
Proof.
  intros Hgeo Hres Hlat Hlon Hfc.
  unfold fetch_weather_window, bind at 1, lift at 1.
  rewrite clamp_hours_int.
  unfold bind at 1, try_except_RequestException at 1, bind at 1, requests_get_json at 1.
  fold (geocoding_request city). rewrite Hgeo.
  unfold bind, lift, ret.
  rewrite (get_present _ _ _ _ Hres). cbn [truthy negb].
  rewrite (getitem_present _ _ _ Hres). cbn [index nth_error].
  rewrite (getitem_present _ _ _ Hlat), (getitem_present _ _ _ Hlon).
  unfold try_except_RequestException, requests_get_json.
  cbn [sent http]. fold (forecast_request latitude longitude).
  rewrite length_app, Nat.add_1_r, Hfc.
  unfold after. now rewrite <- app_assoc.
Qed.

Lemma first_match_inv (geo : pyval) (latitude longitude : pyval) :
  first_match geo = Some (latitude, longitude) ->
  exists entries first others,
    geo = VDict entries
    /\ lookup entries "results" = Some (VList (VDict first :: others))
    /\ lookup first "latitude" = Some latitude
    /\ lookup first "longitude" = Some longitude.
Proof.
  unfold first_match.
  destruct geo as [| | | | |?|entries]; try discriminate.
  destruct (lookup entries "results") as [[| | | | |[|[| | | | |?|first] others]|]|] eqn:Hres;
    try discriminate.
  destruct (lookup first "latitude") as [la|] eqn:Hla; try discriminate.
  destruct (lookup first "longitude") as [lo|] eqn:Hlo; try discriminate.
  intros [= <- <-]. now exists entries, first, others.
Qed.

Lemma forecast_answer_ok_inv (data : pyval) :
  forecast_answer_ok (Body data) = true ->
  exists entries hourly times temps precip,
    data = VDict entries
    /\ hourly_of entries = Some hourly
    /\ array_at hourly "time" = Some times
    /\ array_at hourly "temperature_2m" = Some temps
    /\ array_at hourly "precipitation_probability" = Some precip.
Proof.
  unfold forecast_answer_ok.
  destruct data as [| | | | |?|entries]; try discriminate.
  destruct (hourly_of entries) as [hourly|] eqn:Hh; try discriminate.
  destruct (array_at hourly "time") as [times|] eqn:Ht; try discriminate.
  destruct (array_at hourly "temperature_2m") as [temps|] eqn:Hte; try discriminate.
  destruct (array_at hourly "precipitation_probability") as [precip|] eqn:Hp;
    try discriminate.
  intros _. now exists entries, hourly, times, temps, precip.
Qed.

(** ** The claims about the weather-window tool *)

(** C4. When the geocoding body names a best match with its coordinates and
    the forecast body carries its series as arrays (an absent series being
    empty), [fetch_weather_window] returns the coordinates together with
    exactly the first [min(clamp(hours, 1, 24), len(time))] positions of the
    three arrays zipped into samples, a temperature or precipitation field
    being null where its array is too short, and [window_hours] is the number
    of samples. *)
Theorem window_zips_the_first_entries (city : pyval) (h : Z) (w : net)
    (geo first : list (string * pyval)) (others : list pyval) (latitude longitude : pyval)
    (data hourly : list (string * pyval)) (times temps precip : list pyval) :
  http w (geocoding_request city) (List.length (sent w)) = Body (VDict geo) ->
  lookup geo "results" = Some (VList (VDict first :: others)) ->
  lookup first "latitude" = Some latitude ->
  lookup first "longitude" = Some longitude ->
  http w (forecast_request latitude longitude) (S (List.length (sent w))) = Body (VDict data) ->
  hourly_of data = Some hourly ->
  array_at hourly "time" = Some times ->
  array_at hourly "temperature_2m" = Some temps ->
  array_at hourly "precipitation_probability" = Some precip ->
  let n := Nat.min (Z.to_nat (clamp h 1 24)) (List.length times) in
  let samples := zipped_window n times temps precip in
  fetch_weather_window city (VInt h) w
  = (Return (VDict [("city", city); ("latitude", latitude); ("longitude", longitude);
                    ("window_hours", VInt (Z.of_nat (List.length samples)));
                    ("samples", VList samples)]),
     after w [geocoding_request city; forecast_request latitude longitude])
  /\ List.length samples = n
  /\ forall idx, (idx < n)%nat ->
       nth_error samples idx
       = Some (VDict [("time", nth idx times VNone);
                      ("temperature_c",
                       if Nat.ltb idx (List.length temps) then nth idx temps VNone else VNone);
                      ("precipitation_probability",
                       if Nat.ltb idx (List.length precip) then nth idx precip VNone
                       else VNone)]).
Proof.
  intros Hgeo Hres Hlat Hlon Hfc Hhourly Htimes Htemps Hprecip n samples.
  assert (Hlen : List.length samples = n).
  { unfold samples, zipped_window. now rewrite length_map, length_seq. }
  split; [|split]; [|exact Hlen|].
  - rewrite Hlen.
    exact (fetch_weather_window_success city h w geo first others latitude longitude
             data hourly times temps precip
             Hgeo Hres Hlat Hlon Hfc Hhourly Htimes Htemps Hprecip).
  - intros idx Hidx. unfold samples, zipped_window.
    rewrite nth_error_map, nth_error_seq.
    destruct (Nat.ltb_spec idx n); [reflexivity|lia].
Qed.

(** A forecast of 5 timestamps and 3 temperatures, asked for 12 hours: 5
    samples, the last 2 without temperature. *)
Lemma window_zips_the_first_entries_witness :
  fetch_weather_window (VStr "Hanoi") (VInt 12)
    (providers (Body hanoi_match) (Body short_forecast))
  = (Return (VDict
       [("city", VStr "Hanoi");
        ("latitude", hanoi_latitude);
        ("longitude", hanoi_longitude);
        ("window_hours", VInt 5);
        ("samples",
         VList
           [VDict [("time", VStr "2024-05-01T00:00"); ("temperature_c", VInt 27);
                   ("precipitation_probability", VNone)];
            VDict [("time", VStr "2024-05-01T01:00"); ("temperature_c", VInt 26);
                   ("precipitation_probability", VNone)];
            VDict [("time", VStr "2024-05-01T02:00"); ("temperature_c", VInt 26);
                   ("precipitation_probability", VNone)];
            VDict [("time", VStr "2024-05-01T03:00"); ("temperature_c", VNone);
                   ("precipitation_probability", VNone)];
            VDict [("time", VStr "2024-05-01T04:00"); ("temperature_c", VNone);
                   ("precipitation_probability", VNone)]])]),
     after (providers (Body hanoi_match) (Body short_forecast))
       [geocoding_request (VStr "Hanoi");
        forecast_request hanoi_latitude hanoi_longitude]).
Proof.
  exact (proj1
    (window_zips_the_first_entries (VStr "Hanoi") 12
       (providers (Body hanoi_match) (Body short_forecast))
       _ _ _ hanoi_latitude hanoi_longitude _ _ _ _ _
       eq_refl eq_refl eq_refl eq_refl eq_refl eq_refl eq_refl eq_refl eq_refl)).
Defined.

(** C5. When the geocoding call succeeds with zero matches - an object whose
    [results] entry is absent or holds nothing - the result is exactly the mapping of
    [city] and [error = "No geocoding match"], and the geocoding request is
    the only request performed. *)
Theorem zero_matches_reported (city : pyval) (h : Z) (w : net) (geo : pyval) :
  http w (geocoding_request city) (List.length (sent w)) = Body geo ->
  zero_matches geo = true ->
  fetch_weather_window city (VInt h) w
  = (Return (VDict [("city", city); ("error", VStr "No geocoding match")]),
     {| http := http w; sent := sent w ++ [geocoding_request city] |}).
Proof. intros Hgeo Hzero. exact (fetch_no_match city h w geo Hgeo Hzero). Qed.

Lemma zero_matches_reported_witness :
  fetch_weather_window (VStr "Atlantis") (VInt 6)
    (providers (Body (VDict [("generationtime_ms", VInt 1)])) (Failed "unused"))
  = (Return (VDict [("city", VStr "Atlantis"); ("error", VStr "No geocoding match")]),
     {| http := http (providers (Body (VDict [("generationtime_ms", VInt 1)]))
                        (Failed "unused"));
        sent := [geocoding_request (VStr "Atlantis")] |}).
Proof.
  exact (zero_matches_reported (VStr "Atlantis") 6
           (providers (Body (VDict [("generationtime_ms", VInt 1)])) (Failed "unused"))
           (VDict [("generationtime_ms", VInt 1)]) eq_refl eq_refl).
Defined.

(** With providers that fail the request or keep to the documented shapes,
    the tool returns a dictionary, and each failure is in its [error] field. *)
Lemma fetch_returns_when_well_behaved (city : pyval) (h : Z) (w : net) :
  providers_well_behaved city w = true ->
  exists entries,
    fst (fetch_weather_window city (VInt h) w) = Return (VDict entries)
    /\ lookup entries "city" = Some city
    /\ match reported_failure city w with
       | Some text => entries = [("city", city); ("error", VStr text)]
       | None => lookup entries "error" = None
       end.
Proof.
  unfold providers_well_behaved, reported_failure.
  destruct (http w (geocoding_request city) (List.length (sent w))) as [geo|cause|e] eqn:Hgeo.
  - cbn [geocoding_answer_ok].
    destruct (zero_matches geo) eqn:Hzero.
    + intros _. eexists. rewrite (fetch_no_match city h w geo Hgeo Hzero).
      cbn. repeat split.
    + cbn [orb].
      destruct (first_match geo) as [[latitude longitude]|] eqn:Hfirst; [|discriminate].
      destruct (first_match_inv _ _ _ Hfirst)
        as (entries & first & others & -> & Hres & Hlat & Hlon).
      cbn [andb].
      destruct (http w (forecast_request latitude longitude) (S (List.length (sent w))))
        as [data|cause|e] eqn:Hfc.
      * intros Hok.
        destruct (forecast_answer_ok_inv _ Hok)
          as (dentries & hourly & times & temps & precip & -> & Hh & Ht & Hte & Hp).
        eexists.
        rewrite (fetch_weather_window_success city h w entries first others latitude
                   longitude dentries hourly times temps precip
                   Hgeo Hres Hlat Hlon Hfc Hh Ht Hte Hp).
        cbn. repeat split.
      * intros _. eexists.
        rewrite (fetch_forecast_failed city h w entries first others latitude longitude
                   cause Hgeo Hres Hlat Hlon Hfc).
        cbn. repeat split.
      * discriminate.
  - intros _. eexists. rewrite (fetch_geocoding_failed city h w cause Hgeo).
    cbn. repeat split.
  - discriminate.
Qed.

(** C1, as the code has it.  Only [requests.RequestException] is caught, so
    the guarantee holds for providers each of whose answers is either a
    request that fails with that exception or a body of the documented
    shape; an exception of another class let out by [requests.get] or
    [resp.json()] and a body of another shape are outside it.  For such
    providers [fetch_weather_window] returns a dictionary that echoes
    [city], and a failed geocoding request, zero matches and a failed
    forecast request each end up in its [error] field. *)
Theorem provider_failures_are_captured (city : pyval) (h : Z) (w : net) :
  providers_well_behaved city w = true ->
  exists entries,
    fst (fetch_weather_window city (VInt h) w) = Return (VDict entries)
    /\ lookup entries "city" = Some city
    /\ match reported_failure city w with
       | Some text => entries = [("city", city); ("error", VStr text)]
       | None => lookup entries "error" = None
       end.
Proof. exact (fetch_returns_when_well_behaved city h w). Qed.

(** The forecast request times out after a successful geocoding. *)
Lemma provider_failures_are_captured_witness :
  exists entries,
    fst (fetch_weather_window (VStr "Hanoi") (VInt 12)
           (providers (Body hanoi_match) (Failed "Read timed out.")))
    = Return (VDict entries)
    /\ lookup entries "city" = Some (VStr "Hanoi")
    /\ entries = [("city", VStr "Hanoi");
                  ("error", VStr "Forecast fetch failed: Read timed out.")].
Proof.
  exact (provider_failures_are_captured (VStr "Hanoi") 12
           (providers (Body hanoi_match) (Failed "Read timed out.")) eq_refl).
Defined.

(** C1 as stated fails: a geocoding match that lacks its coordinates makes
    [result["latitude"]] raise [KeyError], which no handler catches. *)
Lemma malformed_match_raises :
  fetch_weather_window (VStr "Hanoi") (VInt 12)
    (providers (Body match_without_coordinates) (Body short_forecast))
  = (Raise KeyError,
     after (providers (Body match_without_coordinates) (Body short_forecast))
       [geocoding_request (VStr "Hanoi")]).
Proof. reflexivity. Qed.

(** Neither handler catches what is no [requests.RequestException]: a
    [ValueError] that decoding the geocoding body lets out leaves the
    function after the one request. *)
Example escaped_exception_is_not_caught :
  fetch_weather_window (VStr "Hanoi") (VInt 12)
    (providers (Escaped ValueError) (Body short_forecast))
  = (Raise ValueError,
     after (providers (Escaped ValueError) (Body short_forecast))
       [geocoding_request (VStr "Hanoi")]).
Proof. reflexivity. Qed.

(** ** Where the samples come from *)

Lemma for_range_inv (sample : nat -> result pyval) (n : nat) :
  forall (idx : nat) (samples out : list pyval),
    for_range n idx sample samples = Return out ->
    exists new,
      out = samples ++ new
      /\ List.length new = n
      /\ forall i s, nth_error new i = Some s -> sample (idx + i)%nat = Return s.
Proof.
  induction n as [|n IH]; intros idx samples out; cbn [for_range].
  - intros [= <-]. exists []. rewrite app_nil_r. repeat split; auto.
    intros [|i] s; discriminate.
  - destruct (sample idx) as [s0|e] eqn:Hs0; cbn [rbind]; [|discriminate].
    intros Hrest. destruct (IH _ _ _ Hrest) as (new & -> & Hlen & Hnth).
    exists (s0 :: new). rewrite <- app_assoc. repeat split; cbn; [lia|].
    intros [|i] s; cbn.
    + intros [= <-]. now rewrite Nat.add_0_r.
    + intros Hi. rewrite Nat.add_succ_r. exact (Hnth i s Hi).
Qed.

Lemma sample_at_inv (times temps precip : pyval) (idx : nat) (s : pyval) :
  sample_at times temps precip idx = Return s ->
  exists time, index times idx = Return time /\ getitem s "time" = Return time.
Proof.
  unfold sample_at.
  destruct (index times idx) as [time|]; cbn [rbind]; [|discriminate].
  destruct (item_or_None temps idx) as [temperature|]; cbn [rbind]; [|discriminate].
  destruct (item_or_None precip idx) as [precipitation|]; cbn [rbind]; [|discriminate].
  intros [= <-]. exists time. split; reflexivity.
Qed.

Lemma window_range_inv (hours times : pyval) (n : nat) :
  window_range hours times = Return n ->
  exists m, len times = Return m /\ (n <= m)%nat.
Proof.
  unfold window_range.
  destruct (len times) as [m|]; cbn [rbind]; [|discriminate].
  destruct (int_lt (Z.of_nat m) hours) as [shorter|] eqn:Hlt; cbn [rbind]; [|discriminate].
  intros Hrange. exists m. split; [reflexivity|].
  destruct shorter.
  - cbn in Hrange. injection Hrange as <-. lia.
  - destruct hours; cbn in Hlt, Hrange; try discriminate;
      injection Hlt as Hlt; injection Hrange as <-;
      apply Z.ltb_ge in Hlt; lia.
Qed.

(** C9, as the code has it.  In every result of [fetch_weather_window] that
    carries samples, the samples are at most as many as the entries of the
    forecast's [time] series, and the [time] field of the sample at an index
    is the entry of that series at the same index: it is never a null filled
    in for a missing position, and it is null only where the provider's own
    series holds null. *)
Theorem sample_times_are_series_entries (city hours : pyval) (w w' : net)
    (entries : list (string * pyval)) (samples : list pyval) :
  fetch_weather_window city hours w = (Return (VDict entries), w') ->
  lookup entries "samples" = Some (VList samples) ->
  exists req data hourly times n,
    http w req (S (List.length (sent w))) = Body data
    /\ url req = forecast_url
    /\ get data "hourly" (VDict []) = Return hourly
    /\ get hourly "time" (VList []) = Return times
    /\ len times = Return n
    /\ (List.length samples <= n)%nat
    /\ forall idx sample,
         nth_error samples idx = Some sample ->
         exists time, index times idx = Return time /\ getitem sample "time" = Return time.
Proof.
  intros Hrun Hsamples.
  unfold fetch_weather_window, bind at 1, lift at 1 in Hrun.
  destruct (clamp_hours hours) as [clamped|]; [|discriminate].
  unfold bind at 1, try_except_RequestException at 1, bind at 1,
    requests_get_json at 1 in Hrun.
  fold (geocoding_request city) in Hrun.
  destruct (http w (geocoding_request city) (List.length (sent w))) as [geo|cause|e0].
  - unfold bind, lift, ret, try_except_RequestException, requests_get_json in Hrun.
    cbn [http sent] in Hrun.
    destruct (get geo "results" VNone) as [results|e]; 
      [|destruct e; try discriminate; injection Hrun as <- _; discriminate].
    destruct (negb (truthy results)); [injection Hrun as <- _; discriminate|].
    destruct (getitem geo "results") as [results0|e]; 
      [|destruct e; try discriminate; injection Hrun as <- _; discriminate].
    destruct (index results0 0) as [result|e]; 
      [|destruct e; try discriminate; injection Hrun as <- _; discriminate].
    destruct (getitem result "latitude") as [latitude|e]; 
      [|destruct e; try discriminate; injection Hrun as <- _; discriminate].
    destruct (getitem result "longitude") as [longitude|e]; 
      [|destruct e; try discriminate; injection Hrun as <- _; discriminate].
    cbn [http sent] in Hrun. fold (forecast_request latitude longitude) in Hrun.
    rewrite length_app, Nat.add_1_r in Hrun.
    destruct (http w (forecast_request latitude longitude) (S (List.length (sent w))))
      as [data|cause|e0] eqn:Hfc;
      [|injection Hrun as <- _; discriminate
       |destruct e0; try discriminate; injection Hrun as <- _; discriminate].
    destruct (get data "hourly" (VDict [])) as [hourly|] eqn:Hhourly; [|discriminate].
    destruct (get hourly "time" (VList [])) as [times|] eqn:Htimes; [|discriminate].
    destruct (get hourly "temperature_2m" (VList [])) as [temps|]; [|discriminate].
    destruct (get hourly "precipitation_probability" (VList [])) as [precip|];
      [|discriminate].
    destruct (window_range clamped times) as [n|] eqn:Hwindow; [|discriminate].
    destruct (for_range n 0 (sample_at times temps precip) []) as [out|] eqn:Hloop;
      [|discriminate].
    injection Hrun as <- _. cbn in Hsamples. injection Hsamples as <-.
    destruct (window_range_inv _ _ _ Hwindow) as (m & Hlen & Hle).
    destruct (for_range_inv _ _ _ _ _ Hloop) as (new & -> & Hnew & Hnth).
    exists (forecast_request latitude longitude), data, hourly, times, m.
    cbn [app]. repeat split; try assumption; try lia.
    intros idx sample Hidx. exact (sample_at_inv _ _ _ _ _ (Hnth idx sample Hidx)).
  - injection Hrun as <- _. discriminate.
  - destruct e0; try discriminate; injection Hrun as <- _; discriminate.
Qed.

Lemma sample_times_are_series_entries_witness :
  exists req data hourly times n,
    http (providers (Body hanoi_match) (Body short_forecast)) req 1 = Body data
    /\ url req = forecast_url
    /\ get data "hourly" (VDict []) = Return hourly
    /\ get hourly "time" (VList []) = Return times
    /\ len times = Return n
    /\ (5 <= n)%nat
    /\ forall idx sample,
         nth_error (zipped_window 5
                      [VStr "2024-05-01T00:00"; VStr "2024-05-01T01:00";
                       VStr "2024-05-01T02:00"; VStr "2024-05-01T03:00";
                       VStr "2024-05-01T04:00"]
                      [VInt 27; VInt 26; VInt 26] []) idx = Some sample ->
         exists time, index times idx = Return time /\ getitem sample "time" = Return time.
Proof.
  exact (sample_times_are_series_entries (VStr "Hanoi") (VInt 12)
           (providers (Body hanoi_match) (Body short_forecast)) _ _ _
           eq_refl eq_refl).
Defined.

(** C9 as stated fails: the timestamp series may itself hold null, and the
    sample then carries a null [time]. *)
Lemma null_timestamp_is_passed_on :
  fst (fetch_weather_window (VStr "Hanoi") (VInt 12)
         (providers (Body hanoi_match) (Body null_timestamp_forecast)))
  = Return (VDict
      [("city", VStr "Hanoi");
       ("latitude", hanoi_latitude);
       ("longitude", hanoi_longitude);
       ("window_hours", VInt 1);
       ("samples",
        VList [VDict [("time", VNone); ("temperature_c", VInt 27);
                      ("precipitation_probability", VNone)]])]).
Proof. reflexivity. Qed.

(** ** The window that is built *)





(** ** The claims about the dispatcher *)

(** The name the dispatcher tests is the name the registry announces. *)
Example registry_names_the_weather_tool :
  rbind (index TOOLS 0) (fun tool =>
  rbind (getitem tool "function") (fun function => getitem function "name"))
  = Return (VStr "fetch_weather_window").
Proof. reflexivity. Qed.

Section DispatcherFacts.

Context {codec : Json}.

Lemma parse_arguments_returns (raw : string) :
  (forall e, json_loads raw = Raise e -> e = JSONDecodeError) ->
  exists args, parse_arguments raw = Return args.
Proof.
  intros Hcaught. unfold parse_arguments.
  destruct (json_loads raw) as [value|e]; [now exists value|].
  rewrite (Hcaught e eq_refl). now exists (VDict []).
Qed.

Lemma parse_arguments_escapes (raw : string) (e : exn) :
  json_loads raw = Raise e -> e <> JSONDecodeError -> parse_arguments raw = Raise e.
Proof.
  unfold parse_arguments. intros -> Hother. destruct e; congruence.
Qed.

Lemma handle_escapes (tool_call : Sdk.tool_call) (w : net) (e : exn) :
  json_loads (Sdk.arguments (Sdk.function tool_call)) = Raise e ->
  e <> JSONDecodeError ->
  handle_tool_call tool_call w = (Raise e, w).
Proof.
  intros Hloads Hother. unfold handle_tool_call, bind, lift.
  now rewrite (parse_arguments_escapes _ _ Hloads Hother).
Qed.

Lemma handle_unknown_tool (tool_call : Sdk.tool_call) (w : net) (args : pyval) :
  Sdk.name (Sdk.function tool_call) <> "fetch_weather_window" ->
  parse_arguments (Sdk.arguments (Sdk.function tool_call)) = Return args ->
  handle_tool_call tool_call w
  = (Return (VDict [("error",
                     VStr ("Unknown tool " ++ Sdk.name (Sdk.function tool_call)))]), w).
Proof.
  intros Hname Hargs. unfold handle_tool_call, bind, lift.
  rewrite Hargs.
  apply String.eqb_neq in Hname. now rewrite Hname.
Qed.

Lemma handle_weather_tool (tool_call : Sdk.tool_call) (w : net)
    (entries : list (string * pyval)) (city : pyval) :
  Sdk.name (Sdk.function tool_call) = "fetch_weather_window" ->
  parse_arguments (Sdk.arguments (Sdk.function tool_call)) = Return (VDict entries) ->
  forallb (fun kv => (fst kv =? "city") || (fst kv =? "hours")) entries = true ->
  lookup entries "city" = Some city ->
  handle_tool_call tool_call w
  = fetch_weather_window city
      (match lookup entries "hours" with Some hours => hours | None => VInt 12 end) w.
Proof.
  intros Hname Hargs Hkeys Hcity. unfold handle_tool_call, bind, lift.
  rewrite Hargs, Hname.
  cbn [String.eqb Ascii.eqb Bool.eqb].
  unfold call_fetch_weather_window. now rewrite Hkeys, Hcity.
Qed.

(** C6, as the code has it.  The arguments are decoded before the name is
    looked at, and only [JSONDecodeError] is caught.  A request whose name
    is not the weather tool's, and whose arguments [json.loads] decodes or
    rejects with [JSONDecodeError], is answered with exactly the mapping
    [error = "Unknown tool <name>"]; nothing is raised and the network is
    left alone. *)
Theorem unknown_tool_is_reported (tool_call : Sdk.tool_call) (w : net) :
  Sdk.name (Sdk.function tool_call) <> "fetch_weather_window" ->
  (forall e, json_loads (Sdk.arguments (Sdk.function tool_call)) = Raise e ->
             e = JSONDecodeError) ->
  handle_tool_call tool_call w
  = (Return (VDict [("error",
                     VStr ("Unknown tool " ++ Sdk.name (Sdk.function tool_call)))]), w).
Proof.
  intros Hname Hcaught.
  destruct (parse_arguments_returns _ Hcaught) as (args & Hargs).
  exact (handle_unknown_tool tool_call w args Hname Hargs).
Qed.

End DispatcherFacts.

Lemma unknown_tool_is_reported_witness :
  @handle_tool_call sample_codec unknown_tool_call
    (providers (Failed "unused") (Failed "unused"))
  = (Return (VDict [("error", VStr "Unknown tool book_flight")]),
     providers (Failed "unused") (Failed "unused"))
  /\ @handle_tool_call sample_codec second_unknown_tool_call
       (providers (Failed "unused") (Failed "unused"))
     = (Return (VDict [("error", VStr "Unknown tool rent_car")]),
        providers (Failed "unused") (Failed "unused")).
Proof.
  split.
  - apply (@unknown_tool_is_reported sample_codec unknown_tool_call);
      [discriminate|intros e; vm_compute; congruence].
  - apply (@unknown_tool_is_reported sample_codec second_unknown_tool_call);
      [discriminate|intros e; vm_compute; congruence].
Defined.

(** C6 as stated fails: for arguments that hold an integer of 4301 digits
    [json.loads] raises [ValueError], which [parse_arguments] does not
    catch, and the request for an unknown tool ends in that exception
    instead of the error mapping. *)
Lemma overlong_arguments_escape :
  @json_loads sample_codec (Sdk.arguments (Sdk.function overlong_unknown_call))
  = Raise ValueError
  /\ @handle_tool_call sample_codec overlong_unknown_call
       (providers (Failed "unused") (Failed "unused"))
     = (Raise ValueError, providers (Failed "unused") (Failed "unused")).
Proof. split; vm_compute; reflexivity. Qed.

(** C2: the failing input.  Arguments that are no JSON become the empty
    argument set, as the claim says; the weather tool is then called without
    its required [city], and the [TypeError] of that call leaves the
    dispatcher and ends the turn. *)
Lemma undecodable_weather_arguments_raise :
  @json_loads sample_codec (Sdk.arguments (Sdk.function undecodable_weather_call))
  = Raise JSONDecodeError
  /\ @parse_arguments sample_codec (Sdk.arguments (Sdk.function undecodable_weather_call))
     = Return (VDict [])
  /\ @handle_tool_call sample_codec undecodable_weather_call
       (providers (Body hanoi_match) (Body short_forecast))
     = (Raise TypeError, providers (Body hanoi_match) (Body short_forecast)).
Proof. repeat split; vm_compute; reflexivity. Qed.

(** ** Stripping *)

Example strip_exit : strip "  /exit " = "/exit".
Proof. reflexivity. Qed.

Example strip_keeps_inner_space : strip (String "009"%char " a  b ") = "a  b".
Proof. reflexivity. Qed.

Example lower_quit : lower "/QUIT" = "/quit".
Proof. reflexivity. Qed.

Lemma lstrip_all_space (s : string) : all_space s = true -> lstrip s = "".
Proof.
  induction s as [|ch rest IH]; cbn; [reflexivity|].
  intros H. apply andb_prop in H as [Hch Hrest]. rewrite Hch. now apply IH.
Qed.

Lemma all_space_lstrip (s : string) : all_space (lstrip s) = all_space s.
Proof.
  induction s as [|ch rest IH]; cbn; [reflexivity|].
  destruct (isspace ch) eqn:Hch; cbn; [exact IH|now rewrite Hch].
Qed.

Lemma rstrip_empty (s : string) : rstrip s = "" <-> all_space s = true.
Proof.
  induction s as [|ch rest IH]; cbn; [tauto|].
  destruct (rstrip rest) as [|k kept] eqn:Hrest.
  - destruct (isspace ch); cbn.
    + split; intros _; [now apply IH|reflexivity].
    + split; discriminate.
  - split; [discriminate|].
    intros H. apply andb_prop in H as [_ H]. apply IH in H. discriminate.
Qed.

Lemma strip_empty (s : string) : strip s = "" <-> all_space s = true.
Proof. unfold strip. now rewrite rstrip_empty, all_space_lstrip. Qed.

Lemma rstrip_idempotent (s : string) : rstrip (rstrip s) = rstrip s.
Proof.
  induction s as [|ch rest IH]; cbn; [reflexivity|].
  destruct (rstrip rest) as [|k kept] eqn:Hrest.
  - destruct (isspace ch) eqn:Hch; cbn; [reflexivity|now rewrite Hch].
  - cbn [rstrip]. fold rstrip. cbn [rstrip] in IH. now rewrite IH.
Qed.

Lemma lstrip_begins_clean (s : string) : begins_clean (lstrip s).
Proof.
  induction s as [|ch rest IH]; cbn; [exact I|].
  destruct (isspace ch) eqn:Hch; [exact IH|exact Hch].
Qed.

Lemma lstrip_rstrip_clean (s : string) : begins_clean s -> lstrip (rstrip s) = rstrip s.
Proof.
  destruct s as [|ch rest]; cbn; [reflexivity|].
  intros Hch. destruct (rstrip rest); rewrite ?Hch; cbn; now rewrite Hch.
Qed.

Lemma strip_idempotent (s : string) : strip (strip s) = strip s.
Proof.
  unfold strip.
  rewrite (lstrip_rstrip_clean _ (lstrip_begins_clean s)).
  apply rstrip_idempotent.
Qed.

(** ** The claims about the conversation loop *)

Section LoopFacts.

Context {codec : Json}.

Lemma strip_nonempty (line : string) : all_space line = false -> (strip line =? "") = false.
Proof.
  intros Hline. apply String.eqb_neq. intros Hempty.
  apply strip_empty in Hempty. congruence.
Qed.

(** C10. The loop works on the stripped line only: a line and its stripped
    form are treated alike; a line of white space is skipped without a
    message and without a call of the model; a command is recognised around
    its white space; and the user message appended for any other line
    carries the stripped text. *)
Theorem input_lines_are_stripped (line : string) (rest : list string)
    (replies : list Sdk.completion) (st : state) :
  user_loop (line :: rest) replies st = user_loop (strip line :: rest) replies st
  /\ (all_space line = true ->
      user_loop (line :: rest) replies st = user_loop rest replies (prompt "You> " st))
  /\ (lower (strip line) = "/exit" \/ lower (strip line) = "/quit" ->
      user_loop (line :: rest) replies st
      = (Completed, replies, print "Bon voyage!" (prompt "You> " st)))
  /\ (lower (strip line) = "/reset" ->
      user_loop (line :: rest) replies st
      = user_loop rest replies
          (print "Conversation reset." (assign [system_message] (prompt "You> " st))))
  /\ (all_space line = false -> is_command line = false ->
      user_loop (line :: rest) replies st
      = match model_loop replies
                (append {| Msg.role := "user"; Msg.content := VStr (strip line);
                           Msg.tool_calls := None; Msg.tool_call_id := None |}
                   (prompt "You> " st)) with
        | (Completed, replies', st') => user_loop rest replies' st'
        | stopped => stopped
        end).
Proof.
  repeat split.
  - cbn [user_loop]. now rewrite strip_idempotent.
  - intros Hspace. cbn [user_loop].
    apply strip_empty in Hspace. now rewrite Hspace.
  - intros Hexit. cbn [user_loop].
    destruct (strip line =? "") eqn:Hempty.
    + apply String.eqb_eq in Hempty. rewrite Hempty in Hexit.
      destruct Hexit; discriminate.
    + destruct Hexit as [-> | ->]; reflexivity.
  - intros Hreset. cbn [user_loop].
    destruct (strip line =? "") eqn:Hempty.
    + apply String.eqb_eq in Hempty. rewrite Hempty in Hreset. discriminate.
    + rewrite Hreset. reflexivity.
  - intros Hline Hcommand. cbn [user_loop].
    rewrite (strip_nonempty _ Hline).
    unfold is_command in Hcommand.
    apply orb_false_elim in Hcommand as [Hcommand Hreset].
    rewrite Hcommand, Hreset. reflexivity.
Qed.

(** C8. A reply without requests whose extracted text is blank once stripped
    prints the placeholder between two dividers of 60 dashes, and appends an
    assistant message that carries the extracted text itself. *)
Theorem placeholder_is_for_display_only (message : Sdk.chat_message) (st : state)
    (assistant_text : string) :
  Sdk.tool_calls message = None \/ Sdk.tool_calls message = Some [] ->
  extract_text (Sdk.content message) = Return assistant_text ->
  strip assistant_text = "" ->
  model_round message st
  = (Return false,
     {| messages :=
          messages st
          ++ [{| Msg.role := "assistant"; Msg.content := VStr assistant_text;
                 Msg.tool_calls := None; Msg.tool_call_id := None |}];
        stdout :=
          stdout st
          ++ [Printed "------------------------------------------------------------";
              Printed "Assistant returned no narrative.";
              Printed "------------------------------------------------------------"];
        network := network st |}).
Proof.
  intros Hcalls Htext Hblank. unfold model_round.
  assert (Hplain :
    match Sdk.tool_calls message with
    | Some (call :: more) => False
    | _ => True
    end) by (destruct Hcalls as [-> | ->]; exact I).
  destruct (Sdk.tool_calls message) as [[|call more]|]; try contradiction;
    rewrite Htext, Hblank; cbn [String.eqb];
    unfold print_response, append, print; cbn [messages stdout network];
    rewrite <- !app_assoc; reflexivity.
Qed.

End LoopFacts.

(** ** The transcript invariant *)

Lemma well_answered_app (l1 l2 : list Msg.message) :
  forall pending,
    well_answered pending (l1 ++ l2)
    = well_answered pending l1 && well_answered (fold_left pending_after l1 pending) l2.
Proof.
  induction l1 as [|m l1 IH]; intros pending; cbn [app well_answered fold_left].
  - reflexivity.
  - now rewrite IH, andb_assoc.
Qed.

(** What the boolean check means for a tool result of the transcript: it
    answers the assistant message in front of it, or - with nothing but tool
    results in front of it - one of the requests pending at the start. *)
Lemma well_answered_sound (transcript : list Msg.message) :
  forall pending,
    well_answered pending transcript = true ->
    forall before m behind,
      transcript = before ++ m :: behind ->
      Msg.role m = "tool" ->
      exists call_id,
        Msg.tool_call_id m = Some call_id
        /\ ((Forall (fun r => Msg.role r = "tool") before /\ In call_id pending)
            \/ exists earlier assistant results,
                 before = earlier ++ assistant :: results
                 /\ Msg.role assistant = "assistant"
                 /\ Forall (fun r => Msg.role r = "tool") results
                 /\ In call_id (call_ids assistant)).
Proof.
  induction transcript as [|x transcript IH]; intros pending Hcheck before m behind Hsplit Hrole.
  - destruct before; discriminate.
  - cbn [well_answered] in Hcheck. apply andb_prop in Hcheck as [Hhead Htail].
    destruct before as [|b before]; cbn [app] in Hsplit; injection Hsplit as -> ->.
    + rewrite Hrole in Hhead. cbn in Hhead.
      destruct (Msg.tool_call_id m) as [call_id|]; [|discriminate].
      exists call_id. split; [reflexivity|]. left. split; [constructor|].
      apply existsb_exists in Hhead as (y & Hin & Heq).
      apply String.eqb_eq in Heq. now subst.
    + destruct (IH _ Htail before m behind eq_refl Hrole)
        as (call_id & Hid & [[Hall Hin] | (earlier & a & results & -> & Ha & Hres & Hin)]).
      * exists call_id. split; [exact Hid|].
        unfold pending_after in Hin.
        destruct (Msg.role b =? "tool") eqn:Hb.
        -- left. split; [|exact Hin]. constructor; [|exact Hall].
           now apply String.eqb_eq.
        -- destruct (Msg.role b =? "assistant") eqn:Hb'; [|destruct Hin].
           right. exists [], b, before. repeat split; try assumption.
           now apply String.eqb_eq.
      * exists call_id. split; [exact Hid|]. right.
        exists (b :: earlier), a, results. repeat split; assumption.
Qed.

Lemma well_answered_prefix (written rest : list Msg.message) :
  well_answered [] (written ++ rest) = true -> well_answered [] written = true.
Proof.
  rewrite well_answered_app. intros H. now apply andb_prop in H as [H _].
Qed.

Lemma well_answered_invariant (transcript : list Msg.message) :
  well_answered [] transcript = true -> answers_preceding_request transcript.
Proof.
  intros Hcheck before m behind Hsplit Hrole.
  destruct (well_answered_sound _ _ Hcheck before m behind Hsplit Hrole)
    as (call_id & Hid & [[_ []] | (earlier & a & results & Hb & Ha & Hres & Hin)]).
  now exists earlier, a, results, call_id.
Qed.

(** A tool result in front of which no request is open is rejected, and so
    is one that names another id. *)
Example orphan_result_rejected :
  well_answered [] [system_message; tool_message "call_1" "{}"] = false
  /\ well_answered []
       [system_message;
        requests_message tool_reply [unknown_tool_call];
        tool_message "call_9" "{}"] = false
  /\ well_answered []
       [system_message;
        requests_message tool_reply [unknown_tool_call];
        user_message "hello";
        tool_message "call_1" "{}"] = false.
Proof. repeat split. Qed.

Section LoopInvariant.

Context {codec : Json}.

Lemma append_keeps_invariant (transcript : list Msg.message) (m : Msg.message) :
  well_answered [] transcript = true ->
  (Msg.role m =? "tool") = false ->
  well_answered [] (transcript ++ [m]) = true.
Proof.
  intros Hinv Hrole. rewrite well_answered_app, Hinv. cbn. now rewrite Hrole.
Qed.

Lemma append_answer_keeps_invariant (transcript : list Msg.message) (call_id content : string) :
  well_answered [] transcript = true ->
  In call_id (open_requests transcript) ->
  well_answered [] (transcript ++ [tool_message call_id content]) = true
  /\ open_requests (transcript ++ [tool_message call_id content]) = open_requests transcript.
Proof.
  intros Hinv Hin. split.
  - rewrite well_answered_app, Hinv. cbn. rewrite andb_true_r.
    apply existsb_exists. exists call_id. split; [exact Hin|apply String.eqb_refl].
  - unfold open_requests. rewrite fold_left_app. reflexivity.
Qed.

Lemma on_network_messages {A} (m : N A) (st : state) :
  messages (snd (on_network m st)) = messages st
  /\ stdout (snd (on_network m st)) = stdout st.
Proof. unfold on_network. destruct (m (network st)). split; reflexivity. Qed.

Lemma for_tool_calls_invariant (calls : list Sdk.tool_call) :
  forall st,
    well_answered [] (messages st) = true ->
    (forall call, In call calls -> In (Sdk.id call) (open_requests (messages st))) ->
    well_answered [] (messages (snd (for_tool_calls calls st))) = true.
Proof.
  induction calls as [|call calls IH]; intros st Hinv Hopen; cbn [for_tool_calls].
  - exact Hinv.
  - pose proof (on_network_messages (handle_tool_call call) st) as [Hmsgs _].
    destruct (on_network (handle_tool_call call) st) as [[tool_result|e] st1];
      cbn [snd] in Hmsgs |- *.
    + destruct (append_answer_keeps_invariant (messages st1) (Sdk.id call)
                  (json_dumps tool_result)) as [Hinv1 Hopen1].
      * now rewrite Hmsgs.
      * rewrite Hmsgs. apply Hopen. now left.
      * apply IH; cbn [append messages].
        -- exact Hinv1.
        -- intros c Hc. rewrite Hopen1, Hmsgs. apply Hopen. now right.
    + now rewrite Hmsgs.
Qed.

Lemma open_requests_of_reply (transcript : list Msg.message) (message : Sdk.chat_message)
    (calls : list Sdk.tool_call) :
  open_requests (transcript ++ [requests_message message calls]) = map Sdk.id calls.
Proof.
  unfold open_requests. rewrite fold_left_app. cbn.
  unfold pending_after, call_ids. cbn. rewrite map_map. reflexivity.
Qed.

Lemma model_round_invariant (message : Sdk.chat_message) (st : state) :
  well_answered [] (messages st) = true ->
  well_answered [] (messages (snd (model_round message st))) = true.
Proof.
  intros Hinv. unfold model_round.
  assert (Hplain :
    well_answered []
      (messages
         (snd match extract_text (Sdk.content message) with
              | Return assistant_text =>
                  (Return false,
                   append (narrative_message assistant_text)
                     (print_response
                        (if strip assistant_text =? "" then NO_NARRATIVE
                         else strip assistant_text) st))
              | Raise e => (Raise e, st)
              end)) = true).
  { destruct (extract_text (Sdk.content message)); cbn [snd]; [|exact Hinv].
    cbn [append messages print_response print]. now apply append_keeps_invariant. }
  destruct (Sdk.tool_calls message) as [[|call more]|]; try exact Hplain.
  set (calls := call :: more).
  pose proof (for_tool_calls_invariant calls
                (append (requests_message message calls) st)) as Hloop.
  destruct (for_tool_calls calls (append (requests_message message calls) st))
    as [[[]|e] st1]; cbn [snd] in Hloop |- *; apply Hloop;
    cbn [append messages];
    try (now apply append_keeps_invariant);
    intros c Hc; rewrite open_requests_of_reply; now apply in_map.
Qed.

Lemma model_loop_invariant (replies : list Sdk.completion) :
  forall st,
    well_answered [] (messages st) = true ->
    well_answered [] (messages (snd (model_loop replies st))) = true.
Proof.
  induction replies as [|[message|e] replies IH]; intros st Hinv; cbn [model_loop];
    try exact Hinv.
  pose proof (model_round_invariant message st Hinv) as Hround.
  destruct (model_round message st) as [[[|]|e] st1]; cbn [snd] in Hround |- *.
  - now apply IH.
  - exact Hround.
  - exact Hround.
Qed.

Lemma user_loop_invariant (lines : list string) :
  forall replies st,
    well_answered [] (messages st) = true ->
    well_answered [] (messages (snd (user_loop lines replies st))) = true.
Proof.
  induction lines as [|line lines IH]; intros replies st Hinv; cbn [user_loop].
  - exact Hinv.
  - destruct (strip line =? ""); [now apply IH|].
    destruct ((lower (strip line) =? "/exit") || (lower (strip line) =? "/quit"));
      [exact Hinv|].
    destruct (lower (strip line) =? "/reset"); [now apply IH|].
    pose proof (model_loop_invariant replies
                  (append (user_message (strip line)) (prompt "You> " st))) as Hturn.
    destruct (model_loop replies (append (user_message (strip line)) (prompt "You> " st)))
      as [[[| |e] replies1] st1]; cbn [snd] in Hturn |- *;
      try apply IH; apply Hturn; cbn [append messages prompt];
      now apply append_keeps_invariant.
Qed.

Lemma run_cli_invariant (env : environ) (lines : list string)
    (replies : list Sdk.completion) (w : net) :
  well_answered [] (messages (snd (run_cli env lines replies w))) = true.
Proof.
  unfold run_cli, create_client, require_api_key.
  destruct (API_KEY env) as [key|]; [destruct (key =? "")|]; try reflexivity.
  destruct (BASE_URL env) as [u|]; [destruct (u =? "")|];
    now apply user_loop_invariant.
Qed.

End LoopInvariant.

Section Transcript.

Context {codec : Json}.

Lemma for_tool_calls_dispatched (calls : list Sdk.tool_call) :
  forall st results w',
    dispatch_all calls (network st) = Some (results, w') ->
    exists st',
      for_tool_calls calls st = (Return tt, st')
      /\ messages st' = messages st ++ map answer_message (combine calls results)
      /\ network st' = w'
      /\ List.length results = List.length calls.
Proof.
  induction calls as [|call calls IH]; intros st results w'; cbn [dispatch_all for_tool_calls].
  - intros [= <- <-]. exists st. repeat split. now rewrite app_nil_r.
  - unfold on_network.
    destruct (handle_tool_call call (network st)) as [[tool_result|e] w1]; [|discriminate].
    destruct (dispatch_all calls w1) as [[others w2]|] eqn:Hrest; [|discriminate].
    intros [= <- <-].
    destruct (IH (append (tool_message (Sdk.id call) (json_dumps tool_result))
                    {| messages := messages st; stdout := stdout st; network := w1 |})
                others w2 Hrest) as (st' & Hloop & Hmsgs & Hnet & Hlen).
    exists st'. repeat split; [exact Hloop| |exact Hnet|cbn [List.length]; now rewrite Hlen].
    rewrite Hmsgs. cbn [append messages combine map]. now rewrite <- app_assoc.
Qed.

(** C7, as the code has it.  Whatever the console, the model and the
    providers do, the transcript the loop has built when it stops - at the
    end of the input, on an exception, or waiting for the next reply - lets
    every tool result answer a request of the assistant message in front of
    it; so does every beginning of that transcript, that is every stage of
    its writing; and each round of the inner loop keeps it so.  A turn that
    gets a reply with requests and then a plain reply, in which the
    dispatcher returns a result for every request and the text of the plain
    reply can be extracted, completes, leaves the replies that follow unread
    and appends the user message, the assistant message with the requests as
    they came, one tool result per request in their order with the request's
    id, and the assistant narrative. *)
Theorem tool_results_answer_requests :
  (forall env lines replies w,
     well_answered [] (messages (snd (run_cli env lines replies w))) = true
     /\ answers_preceding_request (messages (snd (run_cli env lines replies w)))
     /\ forall written rest,
          messages (snd (run_cli env lines replies w)) = written ++ rest ->
          answers_preceding_request written)
  /\ (forall message st,
        well_answered [] (messages st) = true ->
        well_answered [] (messages (snd (model_round message st))) = true)
  /\ (forall line first second calls more st results w' narrative,
        all_space line = false ->
        is_command line = false ->
        Sdk.tool_calls first = Some calls ->
        calls <> [] ->
        Sdk.tool_calls second = None \/ Sdk.tool_calls second = Some [] ->
        dispatch_all calls (network st) = Some (results, w') ->
        extract_text (Sdk.content second) = Return narrative ->
        exists st',
          user_loop [line] (Sdk.Reply first :: Sdk.Reply second :: more) st
          = (Completed, more, st')
          /\ List.length results = List.length calls
          /\ network st' = w'
          /\ messages st'
             = messages st
               ++ [{| Msg.role := "user"; Msg.content := VStr (strip line);
                      Msg.tool_calls := None; Msg.tool_call_id := None |}]
               ++ [{| Msg.role := "assistant"; Msg.content := Sdk.content first;
                      Msg.tool_calls :=
                        Some (map (fun call =>
                                     {| Msg.id := Sdk.id call;
                                        Msg.type := "function";
                                        Msg.function :=
                                          {| Msg.name := Sdk.name (Sdk.function call);
                                             Msg.arguments :=
                                               Sdk.arguments (Sdk.function call) |} |})
                                calls);
                      Msg.tool_call_id := None |}]
               ++ map (fun answered =>
                         {| Msg.role := "tool";
                            Msg.content := VStr (json_dumps (snd answered));
                            Msg.tool_calls := None;
                            Msg.tool_call_id := Some (Sdk.id (fst answered)) |})
                    (combine calls results)
               ++ [{| Msg.role := "assistant"; Msg.content := VStr narrative;
                      Msg.tool_calls := None; Msg.tool_call_id := None |}]).
Proof.
  split; [|split].
  - intros env lines replies w.
    pose proof (run_cli_invariant env lines replies w) as Hinv.
    split; [exact Hinv|split; [now apply well_answered_invariant|]].
    intros written rest Hsplit. rewrite Hsplit in Hinv.
    apply well_answered_invariant. exact (well_answered_prefix _ _ Hinv).
  - exact model_round_invariant.
  - intros line first second calls more st results w' narrative Hline Hcommand Hcalls
      Hsome Hplain Hdispatch Htext.
    cbn [user_loop].
    rewrite (strip_nonempty _ Hline).
    unfold is_command in Hcommand.
    apply orb_false_elim in Hcommand as [Hcommand Hreset].
    rewrite Hcommand, Hreset.
    cbn [model_loop]. unfold model_round at 1. rewrite Hcalls.
    destruct calls as [|call others]; [contradiction|].
    destruct (for_tool_calls_dispatched (call :: others)
                (append (requests_message first (call :: others))
                   (append (user_message (strip line)) (prompt "You> " st)))
                results w' Hdispatch) as (st1 & Hloop & Hmsgs & Hnet & Hlen).
    rewrite Hloop. unfold model_round.
    assert (Hround :
      match Sdk.tool_calls second with
      | Some (call0 :: more0) =>
          match for_tool_calls (call0 :: more0)
                  (append (requests_message second (call0 :: more0)) st1) with
          | (Return _, st2) => (Return true, st2)
          | (Raise e, st2) => (Raise e, st2)
          end
      | _ =>
          match extract_text (Sdk.content second) with
          | Return assistant_text =>
              (Return false,
               append (narrative_message assistant_text)
                 (print_response
                    (if strip assistant_text =? "" then NO_NARRATIVE
                     else strip assistant_text) st1))
          | Raise e => (Raise e, st1)
          end
      end
      = (Return false,
         append (narrative_message narrative)
           (print_response
              (if strip narrative =? "" then NO_NARRATIVE else strip narrative) st1))).
    { destruct Hplain as [-> | ->]; now rewrite Htext. }
    rewrite Hround. cbn [user_loop].
    eexists. split; [reflexivity|]. split; [exact Hlen|]. split.
    + cbn [append network print_response print prompt]. exact Hnet.
    + cbn [append messages print_response print prompt]. rewrite Hmsgs.
      cbn [append messages prompt]. rewrite <- !app_assoc. reflexivity.
Qed.

End Transcript.

(** ** The loop on the sample session *)

(** A blank line, then a question answered after two tool requests: the
    transcript holds the stripped question, the requests, their two results
    in order and the narrative; every tool result answers the assistant
    message in front of it. *)
Lemma tool_results_answer_requests_witness :
  (well_answered []
     (messages
        (snd (@run_cli sample_codec {| API_KEY := Some "sk-test"; BASE_URL := None |}
                ["   "; "  Any flights to Hanoi?  "]
                [Sdk.Reply tool_reply; Sdk.Reply narrative_reply] quiet_net))) = true)
  /\ exists st',
       @user_loop sample_codec ["  Any flights to Hanoi?  "]
         [Sdk.Reply tool_reply; Sdk.Reply narrative_reply] ready
       = (Completed, [], st')
       /\ 2%nat = 2%nat
       /\ network st' = quiet_net
       /\ messages st'
          = [system_message]
            ++ [user_message "Any flights to Hanoi?"]
            ++ [requests_message tool_reply [unknown_tool_call; second_unknown_tool_call]]
            ++ map (@answer_message sample_codec)
                 (combine [unknown_tool_call; second_unknown_tool_call]
                    [VDict [("error", VStr "Unknown tool book_flight")];
                     VDict [("error", VStr "Unknown tool rent_car")]])
            ++ [narrative_message "I can only look up the weather."].
Proof.
  split.
  - exact (proj1 (proj1 (@tool_results_answer_requests sample_codec) _ _ _ _)).
  - refine (proj2 (proj2 (@tool_results_answer_requests sample_codec))
              "  Any flights to Hanoi?  " tool_reply narrative_reply
              [unknown_tool_call; second_unknown_tool_call] [] ready
              [VDict [("error", VStr "Unknown tool book_flight")];
               VDict [("error", VStr "Unknown tool rent_car")]]
              quiet_net "I can only look up the weather."
              eq_refl eq_refl eq_refl _ (or_introl eq_refl) eq_refl eq_refl).
    discriminate.
Defined.

(** C7: a turn the claim covers and the loop does not complete.  The reply
    asks for the weather in Hanoi and the geocoding provider answers with a
    match that has no coordinates: the dispatcher raises [KeyError], the loop
    stops on it with the user message and the requests in the transcript and
    neither a tool result nor the narrative, and the plain reply is left
    unread. *)
Lemma raising_dispatch_ends_the_turn :
  fst (@user_loop sample_codec ["Hanoi tomorrow?"]
         [Sdk.Reply weather_reply; Sdk.Reply narrative_reply] ready_without_coordinates)
  = (Raised KeyError, [Sdk.Reply narrative_reply])
  /\ messages
       (snd (@user_loop sample_codec ["Hanoi tomorrow?"]
               [Sdk.Reply weather_reply; Sdk.Reply narrative_reply]
               ready_without_coordinates))
     = [system_message; user_message "Hanoi tomorrow?";
        requests_message weather_reply [hanoi_weather_call]]
  /\ Sdk.tool_calls weather_reply = Some [hanoi_weather_call]
  /\ Sdk.tool_calls narrative_reply = None.
Proof. vm_compute. repeat split. Qed.

(** The transcript of the sample session, as computed by the model. *)
Example sample_session_transcript :
  messages
    (snd (@user_loop sample_codec ["  Any flights to Hanoi?  "]
            [Sdk.Reply tool_reply; Sdk.Reply narrative_reply] ready))
  = [ system_message;
      user_message "Any flights to Hanoi?";
      {| Msg.role := "assistant"; Msg.content := VNone;
         Msg.tool_calls :=
           Some [{| Msg.id := "call_1"; Msg.type := "function";
                    Msg.function := {| Msg.name := "book_flight"; Msg.arguments := "{}" |} |};
                 {| Msg.id := "call_4"; Msg.type := "function";
                    Msg.function := {| Msg.name := "rent_car";
                                       Msg.arguments := "{city" |} |}];
         Msg.tool_call_id := None |};
      tool_message "call_1"
        ("{" ++ quote ++ "error" ++ quote ++ ": " ++ quote ++ "Unknown tool book_flight"
         ++ quote ++ "}");
      tool_message "call_4"
        ("{" ++ quote ++ "error" ++ quote ++ ": " ++ quote ++ "Unknown tool rent_car"
         ++ quote ++ "}");
      narrative_message "I can only look up the weather." ].
Proof. reflexivity. Qed.

(** A blank reply is shown as the placeholder and recorded as it came. *)
Lemma placeholder_is_for_display_only_witness :
  @model_round sample_codec blank_reply ready
  = (Return false,
     {| messages := [system_message; narrative_message "  "];
        stdout := [Printed (dashes 60); Printed "Assistant returned no narrative.";
                   Printed (dashes 60)];
        network := quiet_net |}).
Proof.
  exact (@placeholder_is_for_display_only sample_codec blank_reply ready "  "
           (or_intror eq_refl) eq_refl eq_refl).
Defined.

(** A blank line is skipped, [/exit] is found between its spaces, [/RESET]
    in capitals resets, and a question is recorded without its margins. *)
Lemma input_lines_are_stripped_witness :
  @user_loop sample_codec ["   "; "  /exit "] [] ready
  = @user_loop sample_codec ["  /exit "] [] (prompt "You> " ready)
  /\ @user_loop sample_codec ["  /exit "] [] ready
     = (Completed, [], print "Bon voyage!" (prompt "You> " ready))
  /\ @user_loop sample_codec [" /RESET"] [] ready
     = @user_loop sample_codec [] []
         (print "Conversation reset." (assign [system_message] (prompt "You> " ready)))
  /\ @user_loop sample_codec ["  Any flights to Hanoi?  "] [] ready
     = (Waiting, [],
        append (user_message "Any flights to Hanoi?") (prompt "You> " ready)).
Proof.
  split; [|split; [|split]].
  - exact (proj1 (proj2 (@input_lines_are_stripped sample_codec "   " ["  /exit "] [] ready))
             eq_refl).
  - exact (proj1 (proj2 (proj2 (@input_lines_are_stripped sample_codec "  /exit " [] []
                                  ready)))
             (or_introl eq_refl)).
  - exact (proj1 (proj2 (proj2 (proj2 (@input_lines_are_stripped sample_codec " /RESET" []
                                         [] ready))))
             eq_refl).
  - exact (proj2 (proj2 (proj2 (proj2 (@input_lines_are_stripped sample_codec
                                         "  Any flights to Hanoi?  " [] [] ready))))
             eq_refl eq_refl).
Defined.

(** * Further properties of the code *)

(** ** The requests of one lookup *)

Ltac innermost_in H :=
  match type of H with
  | context [match ?x with _ => _ end] =>
      lazymatch x with
      | context [match _ with _ => _ end] => fail
      | _ => destruct x eqn:?
      end
  end.

(** Unfolds a run of [fetch_weather_window] kept in [H] into its paths. *)
Ltac fetch_paths H :=
  unfold bind, lift, ret, try_except_RequestException, requests_get_json in H;
  cbn [http sent] in H;
  repeat (innermost_in H; cbn [http sent] in H).

Lemma first_match_intro (geo results result latitude longitude : pyval) :
  getitem geo "results" = Return results ->
  index results 0 = Return result ->
  getitem result "latitude" = Return latitude ->
  getitem result "longitude" = Return longitude ->
  first_match geo = Some (latitude, longitude).
Proof.
  intros Hres Hfirst Hlat Hlon.
  destruct geo as [| | | | |?|entries]; try discriminate.
  cbn in Hres. unfold first_match.
  destruct (lookup entries "results") as [r|]; [|discriminate].
  injection Hres as ->.
  destruct result as [| | | | |?|first]; try discriminate.
  destruct results as [| | | |s|items|d]; try discriminate.
  - cbn in Hfirst. destruct (String.get 0 s); discriminate.
  - destruct items as [|item items]; [discriminate|].
    cbn in Hfirst. injection Hfirst as ->.
    cbn in Hlat, Hlon.
    destruct (lookup first "latitude"); [|discriminate].
    destruct (lookup first "longitude"); [|discriminate].
    congruence.
Qed.

Lemma fetch_refused (city hours : pyval) (w : net) (e : exn) :
  clamp_hours hours = Raise e -> fetch_weather_window city hours w = (Raise e, w).
Proof.
  intros Hclamp. unfold fetch_weather_window, bind at 1, lift at 1. now rewrite Hclamp.
Qed.

Lemma fetch_requests (city hours clamped : pyval) (w w' : net) (r : result pyval) :
  clamp_hours hours = Return clamped ->
  fetch_weather_window city hours w = (r, w') ->
  http w' = http w
  /\ (sent w' = sent w ++ [geocoding_request city]
      \/ exists geo latitude longitude,
           http w (geocoding_request city) (List.length (sent w)) = Body geo
           /\ first_match geo = Some (latitude, longitude)
           /\ sent w' = sent w ++ [geocoding_request city; forecast_request latitude longitude]).
Proof.
  intros Hclamp Hrun.
  unfold fetch_weather_window, bind at 1, lift at 1 in Hrun. rewrite Hclamp in Hrun.
  fold (geocoding_request city) in Hrun.
  fetch_paths Hrun.
  all: injection Hrun as <- <-; cbn [http sent]; split; [reflexivity|].
  all: try (left; reflexivity).
  all: right; eexists _, _, _; split; [eassumption|];
    split; [eapply first_match_intro; eassumption|];
    now rewrite <- app_assoc.
Qed.

(** X1. [hours] is clamped before anything is sent: a value the clamp cannot
    order makes the call raise with the network untouched.  Otherwise the
    providers are left as they are and the call performs the geocoding
    request for [city] and, at most, one forecast request after it, asked
    for the coordinates of the first geocoding match. *)
Theorem requests_follow_the_lookup (city hours : pyval) (w : net) :
  match clamp_hours hours with
  | Raise e => fetch_weather_window city hours w = (Raise e, w)
  | Return _ =>
      http (snd (fetch_weather_window city hours w)) = http w
      /\ (sent (snd (fetch_weather_window city hours w)) = sent w ++ [geocoding_request city]
          \/ exists geo latitude longitude,
               http w (geocoding_request city) (List.length (sent w)) = Body geo
               /\ first_match geo = Some (latitude, longitude)
               /\ sent (snd (fetch_weather_window city hours w))
                  = sent w ++ [geocoding_request city; forecast_request latitude longitude])
  end.
Proof.
  destruct (clamp_hours hours) as [clamped|e] eqn:Hclamp.
  - destruct (fetch_weather_window city hours w) as [r w'] eqn:Hrun.
    exact (fetch_requests city hours clamped w w' r Hclamp Hrun).
  - now apply fetch_refused.
Qed.

(** ** The shape of a result *)

Lemma fetch_result_shape (city hours : pyval) (w w' : net) (value : pyval) :
  fetch_weather_window city hours w = (Return value, w') ->
  (exists text,
     value = VDict [("city", city); ("error", VStr text)]
     /\ (text = "No geocoding match"
         \/ (exists cause, text = ("Geocoding failed: " ++ cause)%string)
         \/ (exists cause, text = ("Forecast fetch failed: " ++ cause)%string)))
  \/ (exists clamped latitude longitude times samples,
        clamp_hours hours = Return clamped
        /\ window_range clamped times = Return (List.length samples)
        /\ value = VDict [("city", city); ("latitude", latitude); ("longitude", longitude);
                          ("window_hours", VInt (Z.of_nat (List.length samples)));
                          ("samples", VList samples)]).
Proof.
  intros Hrun.
  unfold fetch_weather_window, bind at 1, lift at 1 in Hrun.
  destruct (clamp_hours hours) as [clamped|] eqn:Hclamp; [|discriminate].
  fetch_paths Hrun.
  all: try discriminate.
  all: injection Hrun as <- <-.
  all: try (left; eexists; split; [reflexivity|];
            first [ left; reflexivity
                  | right; left; eexists; reflexivity
                  | right; right; eexists; reflexivity ]).
  right.
  match goal with
  | Hloop : for_range _ _ _ _ = Return _ |- _ =>
      destruct (for_range_inv _ _ _ _ _ Hloop) as (new & -> & Hlen & _)
  end.
  cbn [app]. eexists _, _, _, _, _. split; [reflexivity|].
  split; [|reflexivity].
  rewrite Hlen. eassumption.
Qed.

(** X2. A result is either an error report or a window, never both: it is
    exactly the mapping of [city] and [error] - the text being one of the
    three failure messages - or exactly the five entries [city], [latitude],
    [longitude], [window_hours], [samples], where [window_hours] is the
    number of samples. *)
Theorem result_is_error_or_window (city hours : pyval) (w w' : net) (value : pyval) :
  fetch_weather_window city hours w = (Return value, w') ->
  (exists text,
     value = VDict [("city", city); ("error", VStr text)]
     /\ (text = "No geocoding match"
         \/ (exists cause, text = ("Geocoding failed: " ++ cause)%string)
         \/ (exists cause, text = ("Forecast fetch failed: " ++ cause)%string)))
  \/ (exists latitude longitude samples,
        value = VDict [("city", city); ("latitude", latitude); ("longitude", longitude);
                       ("window_hours", VInt (Z.of_nat (List.length samples)));
                       ("samples", VList samples)]).
Proof.
  intros Hrun.
  destruct (fetch_result_shape city hours w w' value Hrun)
    as [Herror | (clamped & latitude & longitude & times & samples & _ & _ & ->)].
  - left. exact Herror.
  - right. now exists latitude, longitude, samples.
Qed.

Lemma result_is_error_or_window_witness :
  (exists text,
     VDict [("city", VStr "Atlantis"); ("error", VStr "No geocoding match")]
     = VDict [("city", VStr "Atlantis"); ("error", VStr text)]
     /\ (text = "No geocoding match"
         \/ (exists cause, text = ("Geocoding failed: " ++ cause)%string)
         \/ (exists cause, text = ("Forecast fetch failed: " ++ cause)%string)))
  \/ (exists latitude longitude samples,
        VDict [("city", VStr "Atlantis"); ("error", VStr "No geocoding match")]
        = VDict [("city", VStr "Atlantis"); ("latitude", latitude);
                 ("longitude", longitude);
                 ("window_hours", VInt (Z.of_nat (List.length samples)));
                 ("samples", VList samples)]).
Proof.
  exact (result_is_error_or_window (VStr "Atlantis") (VInt 6)
           (providers (Body (VDict [])) (Failed "unused")) _ _ eq_refl).
Defined.

(** ** The clamp on any value *)

Lemma Z_lt_float_monotone (k1 k2 : Z) (f : spec_float) :
  (k1 <= k2)%Z -> Z_lt_float k2 f = true -> Z_lt_float k1 f = true.
Proof.
  intros Hle. destruct f as [s|s| |s m e]; cbn; try easy.
  - intros H. apply Z.ltb_lt in H. apply Z.ltb_lt. lia.
  - destruct (0 <=? e)%Z eqn:He; intros H; apply Z.ltb_lt in H; apply Z.ltb_lt.
    + lia.
    + apply Z.leb_gt in He.
      assert (0 < 2 ^ (- e))%Z by (apply Z.pow_pos_nonneg; lia).
      nia.
Qed.

Lemma clamp_hours_range (hours value : pyval) :
  clamp_hours hours = Return value ->
  (exists z, value = VInt z /\ (1 <= z <= 24)%Z)
  \/ (exists f, hours = VFloat f /\ value = VFloat f
                /\ Z_lt_float 1 f = true /\ Z_lt_float 24 f = false).
Proof.
  destruct hours as [|b|z|f| | |]; try discriminate.
  - destruct b; cbn; intros [= <-]; left; exists 1%Z; (split; [reflexivity|lia]).
  - rewrite clamp_hours_int. intros [= <-]. left. eexists. split; [reflexivity|].
    apply clamp_bounds.
  - unfold clamp_hours, min_with_int, max_with_int. cbn [int_lt rbind].
    destruct (Z_lt_float 24 f) eqn:Hhigh; cbn [int_lt rbind].
    + cbn. intros [= <-]. left. exists 24%Z. split; [reflexivity|lia].
    + destruct (Z_lt_float 1 f) eqn:Hlow; intros [= <-].
      * right. now exists f.
      * left. exists 1%Z. split; [reflexivity|lia].
Qed.

(** X3. The clamp on any value: what cannot be ordered with an [int] (null,
    a string, a list, a mapping) raises [TypeError]; a boolean counts as 1;
    and a value that passes is an integer between 1 and 24, or the fractional
    number itself when it lies above 1 and not above 24. *)
Theorem clamp_covers_every_value (hours : pyval) :
  match clamp_hours hours with
  | Raise e => e = TypeError /\ is_number hours = false
  | Return value =>
      is_number hours = true
      /\ (forall b, hours = VBool b -> value = VInt 1)
      /\ ((exists z, value = VInt z /\ (1 <= z <= 24)%Z)
          \/ (exists f, hours = VFloat f /\ value = VFloat f
                        /\ Z_lt_float 1 f = true /\ Z_lt_float 24 f = false))
  end.
Proof.
  destruct (clamp_hours hours) as [value|e] eqn:Hclamp.
  - split; [|split].
    + destruct hours; try reflexivity; discriminate.
    + intros b ->. destruct b; cbn in Hclamp; congruence.
    + now apply clamp_hours_range.
  - destruct hours as [|b|z|f| | |]; try (cbn in Hclamp; injection Hclamp as <-; now split).
    + destruct b; discriminate.
    + rewrite clamp_hours_int in Hclamp. discriminate.
    + unfold clamp_hours, min_with_int, max_with_int in Hclamp. cbn [int_lt rbind] in Hclamp.
      destruct (Z_lt_float 24 f); cbn [int_lt rbind] in Hclamp; [discriminate|].
      destruct (Z_lt_float 1 f); discriminate.
Qed.

(** ** The size of the window *)

Lemma window_range_bounded (hours clamped times : pyval) (n : nat) :
  clamp_hours hours = Return clamped ->
  window_range clamped times = Return n ->
  (n <= 24)%nat
  /\ (forall h, hours = VInt h -> (n <= Z.to_nat (clamp h 1 24))%nat)
  /\ exists m, len times = Return m /\ (n <= m)%nat.
Proof.
  intros Hclamp Hwindow.
  split; [|split]; [| |exact (window_range_inv _ _ _ Hwindow)].
  - unfold window_range in Hwindow.
    destruct (len times) as [m|]; cbn [rbind] in Hwindow; [|discriminate].
    destruct (clamp_hours_range _ _ Hclamp)
      as [(z & -> & Hz) | (f & _ & -> & Hlow & Hhigh)]; cbn [int_lt rbind] in Hwindow.
    + destruct (Z.ltb_spec (Z.of_nat m) z); cbn in Hwindow; injection Hwindow as <-; lia.
    + destruct (Z_lt_float (Z.of_nat m) f) eqn:Hm; cbn in Hwindow; [|discriminate].
      injection Hwindow as <-.
      rewrite Nat2Z.id.
      destruct (Nat.le_gt_cases m 24) as [Hle|Hgt]; [exact Hle|].
      rewrite (Z_lt_float_monotone 24 (Z.of_nat m) f) in Hhigh; [discriminate|lia|exact Hm].
  - intros h ->. rewrite clamp_hours_int in Hclamp. injection Hclamp as <-.
    unfold window_range in Hwindow.
    destruct (len times) as [m|]; cbn [rbind int_lt] in Hwindow; [|discriminate].
    destruct (Z.ltb_spec (Z.of_nat m) (clamp h 1 24)); cbn in Hwindow;
      injection Hwindow as <-; lia.
Qed.

(** X4. In every result that carries samples, whatever [hours] was,
    [window_hours] is the number of samples, and that number is at most 24,
    at most the length of the [time] series the samples were cut from and,
    for an integer [hours], at most [clamp(hours, 1, 24)]. *)
Theorem window_is_bounded (city hours : pyval) (w w' : net)
    (entries : list (string * pyval)) (samples : list pyval) :
  fetch_weather_window city hours w = (Return (VDict entries), w') ->
  lookup entries "samples" = Some (VList samples) ->
  lookup entries "window_hours" = Some (VInt (Z.of_nat (List.length samples)))
  /\ (List.length samples <= 24)%nat
  /\ (forall h, hours = VInt h -> (List.length samples <= Z.to_nat (clamp h 1 24))%nat).
Proof.
  intros Hrun Hsamples.
  destruct (fetch_result_shape city hours w w' _ Hrun)
    as [(text & [= ->] & _)
       | (clamped & latitude & longitude & times & found & Hclamp & Hwindow & [= ->])].
  - discriminate.
  - cbn in Hsamples. injection Hsamples as <-.
    destruct (window_range_bounded _ _ _ _ Hclamp Hwindow) as (H24 & Hint & _).
    repeat split; assumption.
Qed.

Lemma window_is_bounded_witness :
  Some (VInt 5) = Some (VInt (Z.of_nat 5))
  /\ (5 <= 24)%nat
  /\ (forall h, VInt 12 = VInt h -> (5 <= Z.to_nat (clamp h 1 24))%nat).
Proof.
  exact (window_is_bounded (VStr "Hanoi") (VInt 12)
           (providers (Body hanoi_match) (Body short_forecast)) _ _ _
           eq_refl eq_refl).
Defined.

(** ** Where a lookup stops *)

Lemma first_match_truthy (entries : list (string * pyval)) (latitude longitude : pyval) :
  first_match (VDict entries) = Some (latitude, longitude) ->
  exists first others,
    lookup entries "results" = Some (VList (VDict first :: others))
    /\ lookup first "latitude" = Some latitude
    /\ lookup first "longitude" = Some longitude.
Proof.
  intros Hfirst.
  destruct (first_match_inv _ _ _ Hfirst) as (e & first & others & [= <-] & H).
  now exists first, others.
Qed.

(** The run up to the forecast request, for a geocoding body that names a
    first match. *)
Ltac run_geocoding Hclamp Hgeo Hres Hlat Hlon :=
  unfold fetch_weather_window, bind at 1, lift at 1;
  rewrite Hclamp;
  unfold bind at 1, try_except_RequestException at 1, bind at 1, requests_get_json at 1;
  match goal with |- context [geocoding_params ?c] => fold (geocoding_request c) end;
  rewrite Hgeo;
  unfold bind, lift, ret;
  rewrite (get_present _ _ _ _ Hres); cbn [truthy negb];
  rewrite (getitem_present _ _ _ Hres); cbn [index nth_error].

(** X5. A failed request ends the lookup where it happens.  When the
    geocoding request fails, the error names it and no forecast request is
    made; when the forecast request fails after a match, the error names it
    and both requests have been made, once each. *)
Theorem failed_request_ends_lookup (city hours clamped : pyval) (w : net) :
  clamp_hours hours = Return clamped ->
  (forall cause,
     http w (geocoding_request city) (List.length (sent w)) = Failed cause ->
     fetch_weather_window city hours w
     = (Return (VDict [("city", city);
                       ("error", VStr ("Geocoding failed: " ++ cause))]),
        {| http := http w; sent := sent w ++ [geocoding_request city] |}))
  /\ (forall geo latitude longitude cause,
        http w (geocoding_request city) (List.length (sent w)) = Body (VDict geo) ->
        first_match (VDict geo) = Some (latitude, longitude) ->
        http w (forecast_request latitude longitude) (S (List.length (sent w)))
        = Failed cause ->
        fetch_weather_window city hours w
        = (Return (VDict [("city", city);
                          ("error", VStr ("Forecast fetch failed: " ++ cause))]),
           {| http := http w;
              sent := sent w ++ [geocoding_request city;
                                 forecast_request latitude longitude] |})).
Proof.
  intros Hclamp. split.
  - intros cause Hgeo.
    unfold fetch_weather_window, bind at 1, lift at 1. rewrite Hclamp.
    unfold bind at 1, try_except_RequestException at 1, bind at 1, requests_get_json at 1.
    fold (geocoding_request city). rewrite Hgeo. reflexivity.
  - intros geo latitude longitude cause Hgeo Hfirst Hfc.
    destruct (first_match_truthy _ _ _ Hfirst) as (first & others & Hres & Hlat & Hlon).
    run_geocoding Hclamp Hgeo Hres Hlat Hlon.
    rewrite (getitem_present _ _ _ Hlat), (getitem_present _ _ _ Hlon).
    unfold try_except_RequestException, requests_get_json.
    cbn [sent http]. fold (forecast_request latitude longitude).
    rewrite length_app, Nat.add_1_r, Hfc. now rewrite <- app_assoc.
Qed.

Lemma failed_request_ends_lookup_witness :
  fetch_weather_window (VStr "Hanoi") (VBool true)
    (providers (Failed "Connection refused") (Body short_forecast))
  = (Return (VDict [("city", VStr "Hanoi");
                    ("error", VStr "Geocoding failed: Connection refused")]),
     {| http := http (providers (Failed "Connection refused") (Body short_forecast));
        sent := [geocoding_request (VStr "Hanoi")] |})
  /\ fetch_weather_window (VStr "Hanoi") (VBool true)
       (providers (Body hanoi_match) (Failed "Read timed out."))
     = (Return (VDict [("city", VStr "Hanoi");
                       ("error", VStr "Forecast fetch failed: Read timed out.")]),
        {| http := http (providers (Body hanoi_match) (Failed "Read timed out."));
           sent := [geocoding_request (VStr "Hanoi");
                    forecast_request hanoi_latitude hanoi_longitude] |}).
Proof.
  split.
  - exact (proj1 (failed_request_ends_lookup (VStr "Hanoi") (VBool true) (VInt 1)
                    (providers (Failed "Connection refused") (Body short_forecast))
                    eq_refl) "Connection refused" eq_refl).
  - exact (proj2 (failed_request_ends_lookup (VStr "Hanoi") (VBool true) (VInt 1)
                    (providers (Body hanoi_match) (Failed "Read timed out."))
                    eq_refl) _ hanoi_latitude hanoi_longitude "Read timed out."
             eq_refl eq_refl eq_refl).
Defined.

(** X6. A first match that lacks [latitude] or [longitude] makes the lookup
    raise [KeyError] right after the geocoding request: no forecast request
    is made and no result is returned. *)
Theorem match_without_coordinates_raises (city hours clamped : pyval) (w : net)
    (geo first : list (string * pyval)) (others : list pyval) :
  clamp_hours hours = Return clamped ->
  http w (geocoding_request city) (List.length (sent w)) = Body (VDict geo) ->
  lookup geo "results" = Some (VList (VDict first :: others)) ->
  lookup first "latitude" = None \/ lookup first "longitude" = None ->
  fetch_weather_window city hours w
  = (Raise KeyError, {| http := http w; sent := sent w ++ [geocoding_request city] |}).
Proof.
  intros Hclamp Hgeo Hres Hmissing.
  run_geocoding Hclamp Hgeo Hres Hlat Hlon.
  unfold getitem.
  destruct (lookup first "latitude") as [latitude|]; [|reflexivity].
  destruct Hmissing as [Hnone | Hnone]; [discriminate|].
  now rewrite Hnone.
Qed.

Lemma match_without_coordinates_raises_witness :
  fetch_weather_window (VStr "Hanoi") (VInt 3)
    (providers (Body match_without_longitude) (Body short_forecast))
  = (Raise KeyError,
     {| http := http (providers (Body match_without_longitude) (Body short_forecast));
        sent := [geocoding_request (VStr "Hanoi")] |}).
Proof.
  exact (match_without_coordinates_raises (VStr "Hanoi") (VInt 3) (VInt 3)
           (providers (Body match_without_longitude) (Body short_forecast)) _ _ _
           eq_refl eq_refl eq_refl (or_intror eq_refl)).
Defined.

(** X7. A forecast without timestamps - no [hourly] object, or no [time]
    series in it, or an empty one - is no error: the result is a window of
    zero samples, whatever the other series hold. *)
Theorem empty_series_gives_empty_window (city hours clamped : pyval) (w : net)
    (geo data hourly : list (string * pyval)) (latitude longitude : pyval) :
  clamp_hours hours = Return clamped ->
  http w (geocoding_request city) (List.length (sent w)) = Body (VDict geo) ->
  first_match (VDict geo) = Some (latitude, longitude) ->
  http w (forecast_request latitude longitude) (S (List.length (sent w)))
  = Body (VDict data) ->
  hourly_of data = Some hourly ->
  array_at hourly "time" = Some [] ->
  fst (fetch_weather_window city hours w)
  = Return (VDict [("city", city); ("latitude", latitude); ("longitude", longitude);
                   ("window_hours", VInt 0); ("samples", VList [])]).
Proof.
  intros Hclamp Hgeo Hfirst Hfc Hhourly Htimes.
  destruct (first_match_truthy _ _ _ Hfirst) as (first & others & Hres & Hlat & Hlon).
  assert (Hwindow : window_range clamped (VList []) = Return 0%nat).
  { unfold window_range. cbn [len rbind List.length Z.of_nat].
    destruct (clamp_hours_range _ _ Hclamp)
      as [(z & -> & Hz) | (f & _ & -> & Hlow & _)]; cbn [int_lt rbind].
    - destruct (Z.ltb_spec 0 z); [reflexivity|lia].
    - rewrite (Z_lt_float_monotone 0 1 f); [reflexivity|lia|exact Hlow]. }
  run_geocoding Hclamp Hgeo Hres Hlat Hlon.
  rewrite (getitem_present _ _ _ Hlat), (getitem_present _ _ _ Hlon).
  unfold try_except_RequestException, requests_get_json.
  cbn [sent http]. fold (forecast_request latitude longitude).
  rewrite length_app, Nat.add_1_r, Hfc.
  rewrite (get_absent_or_dict _ _ Hhourly), (get_absent_or_list _ _ _ Htimes).
  unfold get at 1 2.
  rewrite Hwindow. reflexivity.
Qed.

Lemma empty_series_gives_empty_window_witness :
  fst (fetch_weather_window (VStr "Hanoi") (VInt 12)
         (providers (Body hanoi_match) (Body forecast_without_time)))
  = Return (VDict [("city", VStr "Hanoi"); ("latitude", hanoi_latitude);
                   ("longitude", hanoi_longitude);
                   ("window_hours", VInt 0); ("samples", VList [])]).
Proof.
  exact (empty_series_gives_empty_window (VStr "Hanoi") (VInt 12) (VInt 12)
           (providers (Body hanoi_match) (Body forecast_without_time)) _ _ _
           hanoi_latitude hanoi_longitude eq_refl eq_refl eq_refl eq_refl eq_refl eq_refl).
Defined.

(** ** The dispatcher and the network *)

Section DispatcherEdges.

Context {codec : Json}.

(** X8. For the weather tool, arguments that [parse_arguments] hands on
    and that are no mapping, carry a key other than [city] and [hours], or
    lack [city], make the dispatcher raise [TypeError] before anything is
    sent; so do arguments that [json.loads] rejects with [JSONDecodeError],
    which are handed on as the empty mapping.  An exception of another class
    from [json.loads] is not caught: it leaves the dispatcher as it is,
    whatever the name of the tool, and nothing is sent either. *)
Theorem unsuitable_arguments_raise (tool_call : Sdk.tool_call) (w : net) :
  (forall args,
     Sdk.name (Sdk.function tool_call) = "fetch_weather_window" ->
     parse_arguments (Sdk.arguments (Sdk.function tool_call)) = Return args ->
     binds_parameters args = false ->
     handle_tool_call tool_call w = (Raise TypeError, w))
  /\ (Sdk.name (Sdk.function tool_call) = "fetch_weather_window" ->
      json_loads (Sdk.arguments (Sdk.function tool_call)) = Raise JSONDecodeError ->
      handle_tool_call tool_call w = (Raise TypeError, w))
  /\ (forall e,
        json_loads (Sdk.arguments (Sdk.function tool_call)) = Raise e ->
        e <> JSONDecodeError ->
        handle_tool_call tool_call w = (Raise e, w)).
Proof.
  assert (Hunbound : forall args,
            Sdk.name (Sdk.function tool_call) = "fetch_weather_window" ->
            parse_arguments (Sdk.arguments (Sdk.function tool_call)) = Return args ->
            binds_parameters args = false ->
            handle_tool_call tool_call w = (Raise TypeError, w)).
  { intros args Hname Hargs Hbinds. unfold handle_tool_call, bind, lift.
    rewrite Hargs, Hname.
    cbn [String.eqb Ascii.eqb Bool.eqb].
    unfold call_fetch_weather_window, binds_parameters in *.
    destruct args as [| | | | | |entries]; try reflexivity.
    destruct (forallb _ entries); [|reflexivity].
    destruct (lookup entries "city"); [discriminate|reflexivity]. }
  split; [exact Hunbound|split].
  - intros Hname Hloads. apply (Hunbound (VDict []) Hname); [|reflexivity].
    unfold parse_arguments. now rewrite Hloads.
  - intros e Hloads Hother. exact (handle_escapes tool_call w e Hloads Hother).
Qed.

Lemma fetch_net (city hours : pyval) (w : net) :
  http (snd (fetch_weather_window city hours w)) = http w
  /\ exists reqs,
       sent (snd (fetch_weather_window city hours w)) = sent w ++ reqs
       /\ (List.length reqs <= 2)%nat.
Proof.
  destruct (clamp_hours hours) as [clamped|e] eqn:Hclamp.
  - destruct (fetch_weather_window city hours w) as [r w'] eqn:Hrun.
    destruct (fetch_requests _ _ _ _ _ _ Hclamp Hrun)
      as (Hhttp & [Hone | (geo & la & lo & _ & _ & Htwo)]); cbn [snd].
    + split; [exact Hhttp|]. eexists. split; [exact Hone|]. cbn. lia.
    + split; [exact Hhttp|]. eexists. split; [exact Htwo|]. cbn. lia.
  - rewrite (fetch_refused _ _ _ _ Hclamp). cbn [snd]. split; [reflexivity|].
    exists []. rewrite app_nil_r. split; [reflexivity|]. cbn. lia.
Qed.

Lemma handle_tool_call_net (tool_call : Sdk.tool_call) (w : net) :
  http (snd (handle_tool_call tool_call w)) = http w
  /\ exists reqs,
       sent (snd (handle_tool_call tool_call w)) = sent w ++ reqs
       /\ (List.length reqs
           <= if String.eqb (Sdk.name (Sdk.function tool_call)) "fetch_weather_window"
              then 2 else 0)%nat.
Proof.
  assert (Hnone : forall (n : nat) (r : result pyval),
            http (snd (r, w)) = http w
            /\ exists reqs, sent (snd (r, w)) = sent w ++ reqs
                            /\ (List.length reqs <= n)%nat).
  { intros n r. cbn. split; [reflexivity|]. exists []. rewrite app_nil_r.
    split; [reflexivity|]. cbn. lia. }
  unfold handle_tool_call, bind, lift.
  destruct (parse_arguments (Sdk.arguments (Sdk.function tool_call))) as [args|e];
    [|apply Hnone].
  destruct (Sdk.name (Sdk.function tool_call) =? "fetch_weather_window"); [|apply Hnone].
  unfold call_fetch_weather_window, raise.
  destruct args as [| | | | | |entries]; try apply Hnone.
  destruct (forallb _ entries); [|apply Hnone].
  destruct (lookup entries "city"); [|apply Hnone].
  apply fetch_net.
Qed.

(** X9. Dispatching a request never changes what the providers answer and
    only adds to the requests performed: at most two for the weather tool,
    none for any other name. *)
Theorem dispatch_sends_at_most_two (tool_call : Sdk.tool_call) (w : net) :
  http (snd (handle_tool_call tool_call w)) = http w
  /\ exists reqs,
       sent (snd (handle_tool_call tool_call w)) = sent w ++ reqs
       /\ (List.length reqs
           <= if String.eqb (Sdk.name (Sdk.function tool_call)) "fetch_weather_window"
              then 2 else 0)%nat.
Proof. exact (handle_tool_call_net tool_call w). Qed.

End DispatcherEdges.

Lemma unsuitable_arguments_raise_witness :
  @handle_tool_call sample_codec empty_arguments_call
    (providers (Body hanoi_match) (Body short_forecast))
  = (Raise TypeError, providers (Body hanoi_match) (Body short_forecast))
  /\ @handle_tool_call sample_codec undecodable_weather_call
       (providers (Body hanoi_match) (Body short_forecast))
     = (Raise TypeError, providers (Body hanoi_match) (Body short_forecast))
  /\ @handle_tool_call sample_codec overlong_unknown_call
       (providers (Body hanoi_match) (Body short_forecast))
     = (Raise ValueError, providers (Body hanoi_match) (Body short_forecast)).
Proof.
  split; [|split].
  - exact (proj1 (@unsuitable_arguments_raise sample_codec empty_arguments_call
                    (providers (Body hanoi_match) (Body short_forecast)))
             (VDict []) eq_refl eq_refl eq_refl).
  - exact (proj1 (proj2 (@unsuitable_arguments_raise sample_codec undecodable_weather_call
                           (providers (Body hanoi_match) (Body short_forecast))))
             eq_refl eq_refl).
  - refine (proj2 (proj2 (@unsuitable_arguments_raise sample_codec overlong_unknown_call
                            (providers (Body hanoi_match) (Body short_forecast))))
              ValueError _ _); [vm_compute; reflexivity|discriminate].
Defined.

(** ** The text of a reply *)

Lemma collect_chunks_app (l1 l2 : list pyval) :
  collect_chunks (l1 ++ l2) = collect_chunks l1 ++ collect_chunks l2.
Proof.
  induction l1 as [|part l1 IH]; cbn; [reflexivity|].
  destruct (text_chunk part); cbn; now rewrite IH.
Qed.

Lemma text_chunk_none (part : pyval) : is_text_part part = false -> text_chunk part = None.
Proof.
  destruct part as [| | | | | |entries]; try reflexivity.
  cbn. destruct (lookup entries "type") as [[| | | |tag| |]|]; try reflexivity.
  now intros ->.
Qed.

Lemma text_chunk_some (part : pyval) :
  is_text_part part = true -> exists chunk, text_chunk part = Some chunk.
Proof.
  destruct part as [| | | | | |entries]; try discriminate.
  cbn. destruct (lookup entries "type") as [[| | | |tag| |]|]; try discriminate.
  intros ->. eauto.
Qed.

Lemma collect_chunks_filter (parts : list pyval) :
  collect_chunks (filter is_text_part parts) = collect_chunks parts.
Proof.
  induction parts as [|part parts IH]; cbn [filter collect_chunks]; [reflexivity|].
  destruct (is_text_part part) eqn:Htext.
  - cbn [collect_chunks]. destruct (text_chunk part); now rewrite IH.
  - now rewrite (text_chunk_none _ Htext).
Qed.

Lemma join_raises_TypeError (chunks : list pyval) (e : exn) :
  join chunks = Raise e -> e = TypeError.
Proof.
  induction chunks as [|[] chunks IH]; cbn [join]; try congruence.
  destruct (join chunks); cbn [rbind]; [discriminate|].
  intros [= <-]. now apply IH.
Qed.

Lemma append_associative (s1 s2 s3 : string) :
  (s1 ++ (s2 ++ s3))%string = ((s1 ++ s2) ++ s3)%string.
Proof. induction s1 as [|ch s1 IH]; cbn; [reflexivity|now rewrite IH]. Qed.

Lemma join_app (c1 c2 : list pyval) :
  join (c1 ++ c2)
  = match join c1, join c2 with
    | Return s1, Return s2 => Return (s1 ++ s2)%string
    | _, _ => Raise TypeError
    end.
Proof.
  induction c1 as [|chunk c1 IH]; cbn [app join].
  - destruct (join c2) as [s2|e] eqn:Hc2; [reflexivity|].
    now rewrite (join_raises_TypeError _ _ Hc2).
  - destruct chunk; try reflexivity.
    rewrite IH. destruct (join c1), (join c2); cbn [rbind]; try reflexivity.
    now rewrite append_associative.
Qed.

(** X10. Only the parts tagged as text count: dropping every other part of
    a content list - an image, a number, a mapping with another [type] -
    leaves the extracted text as it was. *)
Theorem other_parts_are_ignored (parts : list pyval) :
  extract_text (VList (filter is_text_part parts)) = extract_text (VList parts).
Proof. cbn [extract_text]. now rewrite collect_chunks_filter. Qed.

(** X11. The text of a content list is put together in order: the text of
    two lists joined is the text of the first followed by the text of the
    second, and it is a [TypeError] as soon as one of them is. *)
Theorem text_is_joined_in_order (l1 l2 : list pyval) :
  extract_text (VList (l1 ++ l2))
  = match extract_text (VList l1), extract_text (VList l2) with
    | Return s1, Return s2 => Return (s1 ++ s2)%string
    | _, _ => Raise TypeError
    end.
Proof. cbn [extract_text]. rewrite collect_chunks_app. apply join_app. Qed.


Example text_around_an_image : extract_text (VList mixed_content) = Return "Paris".
Proof. reflexivity. Qed.

(** ** Starting the session *)

(** X13. Without an [API_KEY] - unset or empty - the process prints the
    diagnostic and exits with status 1 before the session starts: no banner,
    no prompt, no line read, no reply asked for, no request sent.  With a
    key, whatever [BASE_URL] is, the loop starts from the system message
    alone, after the banner. *)
Theorem session_needs_a_key {codec : Json} (env : environ) (lines : list string)
    (replies : list Sdk.completion) (w : net) :
  (API_KEY env = None \/ API_KEY env = Some "" ->
   run_cli env lines replies w
   = (Raised (SystemExit 1), replies,
      {| messages := [];
         stdout := [Printed "Missing API_KEY. Set it in your environment or .env file."];
         network := w |}))
  /\ (forall key,
        API_KEY env = Some key -> key <> "" ->
        run_cli env lines replies w
        = user_loop lines replies
            {| messages := [system_message];
               stdout :=
                 [Printed
                    "Tour Assistant chat ready. Type '/reset' to clear or '/exit' to quit."];
               network := w |}).
Proof.
  split.
  - intros [Hkey | Hkey]; unfold run_cli, create_client, require_api_key;
      rewrite Hkey; reflexivity.
  - intros key Hkey Hfull. unfold run_cli, create_client, require_api_key.
    rewrite Hkey. apply String.eqb_neq in Hfull. rewrite Hfull.
    destruct (BASE_URL env) as [u|]; [destruct (u =? "")|]; reflexivity.
Qed.

Lemma session_needs_a_key_witness :
  @run_cli sample_codec {| API_KEY := Some ""; BASE_URL := None |}
    ["Hanoi tomorrow?"] [Sdk.Reply narrative_reply] quiet_net
  = (Raised (SystemExit 1), [Sdk.Reply narrative_reply],
     {| messages := [];
        stdout := [Printed "Missing API_KEY. Set it in your environment or .env file."];
        network := quiet_net |})
  /\ @run_cli sample_codec {| API_KEY := Some "sk-test"; BASE_URL := Some "" |} [] [] quiet_net
     = @user_loop sample_codec [] []
         {| messages := [system_message];
            stdout :=
              [Printed
                 "Tour Assistant chat ready. Type '/reset' to clear or '/exit' to quit."];
            network := quiet_net |}.
Proof.
  split.
  - exact (proj1 (@session_needs_a_key sample_codec
                    {| API_KEY := Some ""; BASE_URL := None |}
                    ["Hanoi tomorrow?"] [Sdk.Reply narrative_reply] quiet_net)
             (or_intror eq_refl)).
  - refine (proj2 (@session_needs_a_key sample_codec
                     {| API_KEY := Some "sk-test"; BASE_URL := Some "" |} [] [] quiet_net)
              "sk-test" eq_refl _).
    discriminate.
Defined.

(** ** What is shown *)

Section Display.

Context {codec : Json}.

(** X14. What a plain reply shows is never blank: the round prints exactly
    a divider, one line and a divider; the line is the stripped text of the
    reply when that is not empty, the placeholder otherwise; in both cases
    it is not empty and has no white space around it. *)
Theorem shown_text_is_never_blank (message : Sdk.chat_message) (st : state)
    (assistant_text : string) :
  Sdk.tool_calls message = None \/ Sdk.tool_calls message = Some [] ->
  extract_text (Sdk.content message) = Return assistant_text ->
  exists shown,
    stdout (snd (model_round message st))
    = stdout st ++ [Printed (dashes 60); Printed shown; Printed (dashes 60)]
    /\ shown <> ""
    /\ strip shown = shown
    /\ (strip assistant_text <> "" -> shown = strip assistant_text)
    /\ (strip assistant_text = "" -> shown = "Assistant returned no narrative.").
Proof.
  intros Hcalls Htext.
  assert (Hround :
    model_round message st
    = (Return false,
       append (narrative_message assistant_text)
         (print_response
            (if strip assistant_text =? "" then NO_NARRATIVE else strip assistant_text) st))).
  { unfold model_round. destruct Hcalls as [-> | ->]; now rewrite Htext. }
  rewrite Hround. cbn [snd append stdout print_response print].
  destruct (strip assistant_text =? "") eqn:Hblank.
  - apply String.eqb_eq in Hblank. exists NO_NARRATIVE.
    repeat split; try reflexivity.
    + now rewrite <- !app_assoc.
    + discriminate.
    + intros Hfull. contradiction.
  - apply String.eqb_neq in Hblank. exists (strip assistant_text).
    repeat split.
    + rewrite strip_idempotent. now rewrite <- !app_assoc.
    + exact Hblank.
    + apply strip_idempotent.
    + intros Hempty. contradiction.
Qed.

End Display.

Lemma shown_text_is_never_blank_witness :
  exists shown,
    stdout (snd (@model_round sample_codec narrative_reply ready))
    = stdout ready ++ [Printed (dashes 60); Printed shown; Printed (dashes 60)]
    /\ shown <> ""
    /\ strip shown = shown
    /\ (strip "I can only look up the weather." <> "" ->
        shown = strip "I can only look up the weather.")
    /\ (strip "I can only look up the weather." = "" ->
        shown = "Assistant returned no narrative.").
Proof.
  exact (@shown_text_is_never_blank sample_codec narrative_reply ready
           "I can only look up the weather." (or_introl eq_refl) eq_refl).
Defined.

(** ** Every request is answered once, in order *)

Lemma answered_in_order_app (l1 l2 : list Msg.message) :
  forall expected,
    answered_in_order expected (l1 ++ l2)
    = match answered_in_order expected l1 with
      | Some expected' => answered_in_order expected' l2
      | None => None
      end.
Proof.
  induction l1 as [|m l1 IH]; intros expected; cbn [app answered_in_order]; [reflexivity|].
  destruct (expect expected m); [apply IH|reflexivity].
Qed.

Lemma answered_block (ids : list string) :
  forall rest,
    answered_in_order ids rest = Some [] ->
    exists results tail,
      rest = results ++ tail
      /\ map Msg.tool_call_id results = map Some ids
      /\ Forall (fun r => Msg.role r = "tool") results
      /\ answered_in_order [] tail = Some [].
Proof.
  induction ids as [|call_id ids IH]; intros rest Hscan.
  - exists [], rest. repeat split; [constructor|exact Hscan].
  - destruct rest as [|m rest]; [discriminate|].
    cbn [answered_in_order] in Hscan. unfold expect in Hscan.
    destruct (Msg.role m =? "tool") eqn:Hrole; [|discriminate].
    destruct (Msg.tool_call_id m) as [answered|] eqn:Hid; [|discriminate].
    destruct (answered =? call_id) eqn:Hsame; [|discriminate].
    apply String.eqb_eq in Hsame, Hrole. subst answered.
    destruct (IH _ Hscan) as (results & tail & -> & Hids & Htool & Htail).
    exists (m :: results), tail. cbn [app map]. rewrite Hid, Hids.
    repeat split; [now constructor|exact Htail].
Qed.

(** What a fully answered transcript looks like around an assistant message:
    its requests are answered by the messages that follow, one tool result
    each, in the order of the requests, and what comes next is no tool
    result. *)
Lemma answered_in_order_reading (transcript : list Msg.message) :
  answered_in_order [] transcript = Some [] ->
  forall before assistant behind,
    transcript = before ++ assistant :: behind ->
    Msg.role assistant = "assistant" ->
    exists results tail,
      behind = results ++ tail
      /\ map Msg.tool_call_id results = map Some (call_ids assistant)
      /\ Forall (fun r => Msg.role r = "tool") results
      /\ match tail with
         | [] => True
         | m :: _ => Msg.role m <> "tool"
         end.
Proof.
  intros Hscan before a behind -> Hrole.
  rewrite answered_in_order_app in Hscan.
  destruct (answered_in_order [] before) as [expected|]; [|discriminate].
  cbn [answered_in_order] in Hscan. unfold expect in Hscan.
  rewrite Hrole in Hscan. cbn [String.eqb Ascii.eqb Bool.eqb] in Hscan.
  destruct expected; [|discriminate].
  destruct (answered_block _ _ Hscan) as (results & tail & -> & Hids & Htool & Htail).
  exists results, tail. repeat split; try assumption.
  destruct tail as [|m tail]; [exact I|].
  cbn [answered_in_order] in Htail. unfold expect in Htail.
  intros Hm. rewrite Hm in Htail. discriminate.
Qed.

Section Answers.

Context {codec : Json}.

Lemma for_tool_calls_answers (calls : list Sdk.tool_call) :
  forall st,
    answered_in_order [] (messages st) = Some (map Sdk.id calls) ->
    match fst (for_tool_calls calls st) with
    | Return _ => answered_in_order [] (messages (snd (for_tool_calls calls st))) = Some []
    | Raise _ =>
        exists open, answered_in_order [] (messages (snd (for_tool_calls calls st))) = Some open
    end.
Proof.
  induction calls as [|call calls IH]; intros st Hscan; cbn [for_tool_calls].
  - exact Hscan.
  - pose proof (on_network_messages (handle_tool_call call) st) as [Hmsgs _].
    destruct (on_network (handle_tool_call call) st) as [[tool_result|e] st1];
      cbn [snd fst] in Hmsgs |- *.
    + apply IH. cbn [append messages].
      rewrite answered_in_order_app, Hmsgs, Hscan.
      cbn. now rewrite String.eqb_refl.
    + rewrite Hmsgs. eauto.
Qed.

Lemma model_round_answers (message : Sdk.chat_message) (st : state) :
  answered_in_order [] (messages st) = Some [] ->
  match fst (model_round message st) with
  | Return _ => answered_in_order [] (messages (snd (model_round message st))) = Some []
  | Raise _ =>
      exists open, answered_in_order [] (messages (snd (model_round message st))) = Some open
  end.
Proof.
  intros Hscan. unfold model_round.
  assert (Hplain :
    match
      fst match extract_text (Sdk.content message) with
          | Return assistant_text =>
              (Return false,
               append (narrative_message assistant_text)
                 (print_response
                    (if strip assistant_text =? "" then NO_NARRATIVE
                     else strip assistant_text) st))
          | Raise e => (Raise e, st)
          end
    with
    | Return _ =>
        answered_in_order []
          (messages
             (snd match extract_text (Sdk.content message) with
                  | Return assistant_text =>
                      (Return false,
                       append (narrative_message assistant_text)
                         (print_response
                            (if strip assistant_text =? "" then NO_NARRATIVE
                             else strip assistant_text) st))
                  | Raise e => (Raise e, st)
                  end)) = Some []
    | Raise _ =>
        exists open,
          answered_in_order []
            (messages
               (snd match extract_text (Sdk.content message) with
                    | Return assistant_text =>
                        (Return false,
                         append (narrative_message assistant_text)
                           (print_response
                              (if strip assistant_text =? "" then NO_NARRATIVE
                               else strip assistant_text) st))
                    | Raise e => (Raise e, st)
                    end)) = Some open
    end).
  { destruct (extract_text (Sdk.content message)); cbn [fst snd]; [|eauto].
    cbn [append messages print_response print].
    rewrite answered_in_order_app, Hscan. reflexivity. }
  destruct (Sdk.tool_calls message) as [[|call more]|]; try exact Hplain.
  set (calls := call :: more).
  pose proof (for_tool_calls_answers calls
                (append (requests_message message calls) st)) as Hloop.
  destruct (for_tool_calls calls (append (requests_message message calls) st))
    as [[[]|e] st1]; cbn [fst snd] in Hloop |- *; apply Hloop;
    cbn [append messages]; rewrite answered_in_order_app, Hscan;
    cbn; unfold call_ids; cbn; now rewrite map_map.
Qed.

Lemma model_loop_answers (replies : list Sdk.completion) :
  forall st,
    answered_in_order [] (messages st) = Some [] ->
    match fst (fst (model_loop replies st)) with
    | Raised _ =>
        exists open, answered_in_order [] (messages (snd (model_loop replies st))) = Some open
    | _ => answered_in_order [] (messages (snd (model_loop replies st))) = Some []
    end.
Proof.
  induction replies as [|[message|e] replies IH]; intros st Hscan; cbn [model_loop].
  - exact Hscan.
  - pose proof (model_round_answers message st Hscan) as Hround.
    destruct (model_round message st) as [[[|]|e] st1]; cbn [fst snd] in Hround |- *.
    + now apply IH.
    + exact Hround.
    + exact Hround.
  - cbn. eauto.
Qed.

Lemma user_loop_answers (lines : list string) :
  forall replies st,
    answered_in_order [] (messages st) = Some [] ->
    match fst (fst (user_loop lines replies st)) with
    | Raised _ =>
        exists open,
          answered_in_order [] (messages (snd (user_loop lines replies st))) = Some open
    | _ => answered_in_order [] (messages (snd (user_loop lines replies st))) = Some []
    end.
Proof.
  induction lines as [|line lines IH]; intros replies st Hscan; cbn [user_loop].
  - exact Hscan.
  - destruct (strip line =? ""); [now apply IH|].
    destruct ((lower (strip line) =? "/exit") || (lower (strip line) =? "/quit"));
      [exact Hscan|].
    destruct (lower (strip line) =? "/reset"); [now apply IH|].
    pose proof (model_loop_answers replies
                  (append (user_message (strip line)) (prompt "You> " st))) as Hturn.
    destruct (model_loop replies (append (user_message (strip line)) (prompt "You> " st)))
      as [[[| |e] replies1] st1]; cbn [fst snd] in Hturn |- *;
      try apply IH; apply Hturn; cbn [append messages prompt];
      rewrite answered_in_order_app, Hscan; reflexivity.
Qed.

Lemma run_cli_answers (env : environ) (lines : list string)
    (replies : list Sdk.completion) (w : net) :
  match fst (fst (run_cli env lines replies w)) with
  | Raised _ =>
      exists open,
        answered_in_order [] (messages (snd (run_cli env lines replies w))) = Some open
  | _ => answered_in_order [] (messages (snd (run_cli env lines replies w))) = Some []
  end.
Proof.
  unfold run_cli, create_client, require_api_key.
  destruct (API_KEY env) as [key|]; [destruct (key =? "")|]; cbn; eauto.
  destruct (BASE_URL env) as [u|]; [destruct (u =? "")|];
    now apply user_loop_answers.
Qed.

(** X15. In the transcript of every run each request of an assistant message
    is answered once and in the order of the requests, nothing being
    answered twice or out of turn.  When the run ends without an exception -
    at the end of the input, on [/exit], or waiting for the next reply - no
    request is left open: every assistant message is followed by exactly one
    tool result per request it carries, with the ids in request order, and
    then by something that is no tool result. *)
Theorem requests_are_answered_in_order (env : environ) (lines : list string)
    (replies : list Sdk.completion) (w : net) :
  (exists open,
     answered_in_order [] (messages (snd (run_cli env lines replies w))) = Some open)
  /\ match fst (fst (run_cli env lines replies w)) with
     | Raised _ => True
     | _ =>
         answered_in_order [] (messages (snd (run_cli env lines replies w))) = Some []
         /\ forall before assistant behind,
              messages (snd (run_cli env lines replies w)) = before ++ assistant :: behind ->
              Msg.role assistant = "assistant" ->
              exists results tail,
                behind = results ++ tail
                /\ map Msg.tool_call_id results = map Some (call_ids assistant)
                /\ Forall (fun r => Msg.role r = "tool") results
                /\ match tail with
                   | [] => True
                   | m :: _ => Msg.role m <> "tool"
                   end
     end.
Proof.
  pose proof (run_cli_answers env lines replies w) as Hrun.
  destruct (fst (fst (run_cli env lines replies w))).
  - split; [eauto|]. split; [exact Hrun|]. now apply answered_in_order_reading.
  - split; [eauto|]. split; [exact Hrun|]. now apply answered_in_order_reading.
  - split; [exact Hrun|exact I].
Qed.

End Answers.

(** A transcript that answers the second request first is rejected, and so
    is one that answers a request twice. *)
Example out_of_order_rejected :
  answered_in_order []
    [requests_message tool_reply [unknown_tool_call; second_unknown_tool_call];
     tool_message "call_4" "{}"; tool_message "call_1" "{}"] = None
  /\ answered_in_order []
       [requests_message tool_reply [unknown_tool_call];
        tool_message "call_1" "{}"; tool_message "call_1" "{}"] = None
  /\ answered_in_order []
       [requests_message tool_reply [unknown_tool_call; second_unknown_tool_call];
        tool_message "call_1" "{}"] = Some ["call_4"].
Proof. repeat split. Qed.

Lemma requests_are_answered_in_order_witness :
  answered_in_order []
    (messages
       (snd (@run_cli sample_codec {| API_KEY := Some "sk-test"; BASE_URL := None |}
               ["  Any flights to Hanoi?  "; "/exit"]
               [Sdk.Reply tool_reply; Sdk.Reply narrative_reply] quiet_net))) = Some [].
Proof.
  exact (proj1 (proj2 (@requests_are_answered_in_order sample_codec
                         {| API_KEY := Some "sk-test"; BASE_URL := None |}
                         ["  Any flights to Hanoi?  "; "/exit"]
                         [Sdk.Reply tool_reply; Sdk.Reply narrative_reply] quiet_net))).
Defined.

(** ** The session and the network *)

Section Traffic.

Context {codec : Json}.

Lemma grown_by_refl (n : nat) (st st' : state) :
  network st' = network st -> grown_by n st st'.
Proof.
  intros Hnet. unfold grown_by. rewrite Hnet. split; [reflexivity|].
  exists []. rewrite app_nil_r. split; [reflexivity|cbn; lia].
Qed.

Lemma grown_by_trans (n1 n2 n : nat) (st1 st2 st3 : state) :
  grown_by n1 st1 st2 -> grown_by n2 st2 st3 -> (n1 + n2 <= n)%nat -> grown_by n st1 st3.
Proof.
  intros (Hh1 & r1 & Hs1 & Hl1) (Hh2 & r2 & Hs2 & Hl2) Hle. split; [congruence|].
  exists (r1 ++ r2). rewrite Hs2, Hs1, <- app_assoc, length_app. split; [reflexivity|lia].
Qed.

Lemma grown_by_from (n m : nat) (st st0 st1 : state) :
  network st0 = network st -> grown_by n st0 st1 -> (n <= m)%nat -> grown_by m st st1.
Proof.
  intros Hnet Hgrown Hle.
  exact (grown_by_trans 0 n m st st0 st1 (grown_by_refl 0 st st0 Hnet) Hgrown Hle).
Qed.

Lemma for_tool_calls_traffic (calls : list Sdk.tool_call) :
  forall st, grown_by (2 * weather_requests calls) st (snd (for_tool_calls calls st)).
Proof.
  induction calls as [|call calls IH]; intros st; cbn [for_tool_calls].
  - now apply grown_by_refl.
  - assert (Hcall :
      grown_by (if Sdk.name (Sdk.function call) =? "fetch_weather_window" then 2 else 0)
        st (snd (on_network (handle_tool_call call) st))).
    { pose proof (handle_tool_call_net call (network st)) as Hnet.
      unfold on_network, grown_by.
      destruct (handle_tool_call call (network st)) as [r w1]. exact Hnet. }
    assert (Hcount :
      weather_requests (call :: calls)
      = ((if String.eqb (Sdk.name (Sdk.function call)) "fetch_weather_window" then 1 else 0)
         + weather_requests calls)%nat).
    { unfold weather_requests. cbn [filter].
      destruct (Sdk.name (Sdk.function call) =? "fetch_weather_window"); reflexivity. }
    destruct (on_network (handle_tool_call call) st) as [[tool_result|e] st1];
      cbn [snd] in Hcall |- *.
    + eapply grown_by_trans; [exact Hcall| |].
      * eapply grown_by_from; [|apply IH|apply Nat.le_refl]. reflexivity.
      * rewrite Hcount.
        destruct (Sdk.name (Sdk.function call) =? "fetch_weather_window"); lia.
    + eapply grown_by_trans; [exact Hcall|now apply (grown_by_refl 0 st1 st1)|].
      rewrite Hcount.
      destruct (Sdk.name (Sdk.function call) =? "fetch_weather_window"); lia.
Qed.

Lemma model_round_traffic (message : Sdk.chat_message) (st : state) :
  grown_by (2 * match Sdk.tool_calls message with
                | Some calls => weather_requests calls
                | None => 0
                end)
    st (snd (model_round message st)).
Proof.
  unfold model_round.
  destruct (Sdk.tool_calls message) as [[|call more]|].
  - destruct (extract_text (Sdk.content message)); now apply grown_by_refl.
  - pose proof (for_tool_calls_traffic (call :: more)
                  (append (requests_message message (call :: more)) st)) as Hloop.
    destruct (for_tool_calls (call :: more)
                (append (requests_message message (call :: more)) st))
      as [[[]|e] st1]; cbn [snd] in Hloop |- *;
      (eapply grown_by_from; [|exact Hloop|apply Nat.le_refl]); reflexivity.
  - destruct (extract_text (Sdk.content message)); now apply grown_by_refl.
Qed.

Lemma model_loop_traffic (replies : list Sdk.completion) :
  forall st,
    exists n,
      grown_by n st (snd (model_loop replies st))
      /\ (n + 2 * requested (snd (fst (model_loop replies st))) <= 2 * requested replies)%nat.
Proof.
  induction replies as [|[message|e] replies IH]; intros st; cbn [model_loop].
  - exists 0%nat. split; [now apply grown_by_refl|cbn; lia].
  - pose proof (model_round_traffic message st) as Hround.
    cbn [requested].
    destruct (model_round message st) as [[[|]|e] st1]; cbn [fst snd] in Hround |- *.
    + destruct (IH st1) as (n & Hgrown & Hle). eexists. split.
      * eapply grown_by_trans; [exact Hround|exact Hgrown|apply Nat.le_refl].
      * destruct (Sdk.tool_calls message); lia.
    + eexists. split; [exact Hround|]. destruct (Sdk.tool_calls message); lia.
    + eexists. split; [exact Hround|]. destruct (Sdk.tool_calls message); lia.
  - exists 0%nat. split; [now apply grown_by_refl|cbn; lia].
Qed.

Lemma user_loop_traffic (lines : list string) :
  forall replies st,
    grown_by (2 * requested replies) st (snd (user_loop lines replies st)).
Proof.
  induction lines as [|line lines IH]; intros replies st; cbn [user_loop].
  - now apply grown_by_refl.
  - assert (Hskip : forall st1, network st1 = network st ->
              grown_by (2 * requested replies) st (snd (user_loop lines replies st1))).
    { intros st1 Hnet. eapply grown_by_from; [exact Hnet|apply IH|apply Nat.le_refl]. }
    destruct (strip line =? ""); [now apply Hskip|].
    destruct ((lower (strip line) =? "/exit") || (lower (strip line) =? "/quit"));
      [now apply grown_by_refl|].
    destruct (lower (strip line) =? "/reset"); [now apply Hskip|].
    destruct (model_loop_traffic replies
                (append (user_message (strip line)) (prompt "You> " st)))
      as (n & Hturn & Hle).
    destruct (model_loop replies (append (user_message (strip line)) (prompt "You> " st)))
      as [[[| |e] replies1] st1]; cbn [fst snd] in Hturn, Hle |- *.
    + eapply grown_by_trans; [|apply IH|exact Hle].
      eapply grown_by_from; [|exact Hturn|apply Nat.le_refl]. reflexivity.
    + eapply grown_by_from; [|exact Hturn|lia]. reflexivity.
    + eapply grown_by_from; [|exact Hturn|lia]. reflexivity.
Qed.

(** X16. A session talks to the weather providers only on behalf of the
    model: what the providers answer is never altered, the log of requests
    only grows, and it grows by at most two requests for each request of the
    weather tool in the replies of the model - so by none at all when the
    model never asks for the weather tool. *)
Theorem traffic_is_bounded_by_requests (env : environ) (lines : list string)
    (replies : list Sdk.completion) (w : net) :
  http (network (snd (run_cli env lines replies w))) = http w
  /\ exists reqs,
       sent (network (snd (run_cli env lines replies w))) = sent w ++ reqs
       /\ (List.length reqs <= 2 * requested replies)%nat.
Proof.
  unfold run_cli, create_client, require_api_key.
  assert (Hnone : forall (e : ending) (st : state),
            network st = w ->
            http (network (snd (e, replies, st))) = http w
            /\ exists reqs,
                 sent (network (snd (e, replies, st))) = sent w ++ reqs
                 /\ (List.length reqs <= 2 * requested replies)%nat).
  { intros e st <-. cbn [snd]. split; [reflexivity|]. exists []. rewrite app_nil_r.
    split; [reflexivity|cbn; lia]. }
  destruct (API_KEY env) as [key|]; [destruct (key =? "")|]; try now apply Hnone.
  destruct (BASE_URL env) as [u|]; [destruct (u =? "")|];
    match goal with
    | |- context [user_loop lines replies ?st] =>
        exact (user_loop_traffic lines replies st)
    end.
Qed.

End Traffic.

(** ** The system message *)

Section Head.

Context {codec : Json}.

Lemma headed_append (transcript : list Msg.message) (m : Msg.message) :
  headed transcript -> Msg.role m <> "system" -> headed (transcript ++ [m]).
Proof.
  intros (tail & -> & Htail) Hrole. exists (tail ++ [m]). split; [reflexivity|].
  apply Forall_app. split; [exact Htail|]. now constructor.
Qed.

Lemma for_tool_calls_headed (calls : list Sdk.tool_call) :
  forall st, headed (messages st) -> headed (messages (snd (for_tool_calls calls st))).
Proof.
  induction calls as [|call calls IH]; intros st Hhead; cbn [for_tool_calls].
  - exact Hhead.
  - pose proof (on_network_messages (handle_tool_call call) st) as [Hmsgs _].
    destruct (on_network (handle_tool_call call) st) as [[tool_result|e] st1];
      cbn [snd] in Hmsgs |- *.
    + apply IH. cbn [append messages]. rewrite Hmsgs.
      apply headed_append; [exact Hhead|discriminate].
    + now rewrite Hmsgs.
Qed.

Lemma model_round_headed (message : Sdk.chat_message) (st : state) :
  headed (messages st) -> headed (messages (snd (model_round message st))).
Proof.
  intros Hhead. unfold model_round.
  assert (Hplain :
    headed
      (messages
         (snd match extract_text (Sdk.content message) with
              | Return assistant_text =>
                  (Return false,
                   append (narrative_message assistant_text)
                     (print_response
                        (if strip assistant_text =? "" then NO_NARRATIVE
                         else strip assistant_text) st))
              | Raise e => (Raise e, st)
              end))).
  { destruct (extract_text (Sdk.content message)); cbn [snd]; [|exact Hhead].
    cbn [append messages print_response print].
    apply headed_append; [exact Hhead|discriminate]. }
  destruct (Sdk.tool_calls message) as [[|call more]|]; try exact Hplain.
  pose proof (for_tool_calls_headed (call :: more)
                (append (requests_message message (call :: more)) st)) as Hloop.
  destruct (for_tool_calls (call :: more)
              (append (requests_message message (call :: more)) st))
    as [[[]|e] st1]; cbn [snd] in Hloop |- *; apply Hloop; cbn [append messages];
    (apply headed_append; [exact Hhead|discriminate]).
Qed.

Lemma model_loop_headed (replies : list Sdk.completion) :
  forall st, headed (messages st) -> headed (messages (snd (model_loop replies st))).
Proof.
  induction replies as [|[message|e] replies IH]; intros st Hhead; cbn [model_loop];
    try exact Hhead.
  pose proof (model_round_headed message st Hhead) as Hround.
  destruct (model_round message st) as [[[|]|e] st1]; cbn [snd] in Hround |- *;
    [now apply IH|exact Hround|exact Hround].
Qed.

Lemma user_loop_headed (lines : list string) :
  forall replies st,
    headed (messages st) -> headed (messages (snd (user_loop lines replies st))).
Proof.
  induction lines as [|line lines IH]; intros replies st Hhead; cbn [user_loop].
  - exact Hhead.
  - destruct (strip line =? ""); [now apply IH|].
    destruct ((lower (strip line) =? "/exit") || (lower (strip line) =? "/quit"));
      [exact Hhead|].
    destruct (lower (strip line) =? "/reset").
    { apply IH. cbn. exists []. split; [reflexivity|constructor]. }
    pose proof (model_loop_headed replies
                  (append (user_message (strip line)) (prompt "You> " st))) as Hturn.
    destruct (model_loop replies (append (user_message (strip line)) (prompt "You> " st)))
      as [[[| |e] replies1] st1]; cbn [snd] in Hturn |- *;
      try apply IH; apply Hturn; cbn [append messages prompt];
      (apply headed_append; [exact Hhead|discriminate]).
Qed.

(** X17. Once the session has its key, the transcript is headed by the
    system message at every stop of the loop - after any number of turns,
    tool rounds and resets, and also when an exception ends the run - and
    no other message of the transcript has the role [system]. *)
Theorem system_message_stays_first (env : environ) (lines : list string)
    (replies : list Sdk.completion) (w : net) (key : string) :
  API_KEY env = Some key ->
  key <> "" ->
  exists tail,
    messages (snd (run_cli env lines replies w)) = system_message :: tail
    /\ Forall (fun m => Msg.role m <> "system") tail.
Proof.
  intros Hkey Hfull. unfold run_cli, create_client, require_api_key.
  rewrite Hkey. apply String.eqb_neq in Hfull. rewrite Hfull.
  destruct (BASE_URL env) as [u|]; [destruct (u =? "")|];
    apply user_loop_headed; exists []; split; (reflexivity || constructor).
Qed.

End Head.

Lemma system_message_stays_first_witness :
  exists tail,
    messages
      (snd (@run_cli sample_codec {| API_KEY := Some "sk-test"; BASE_URL := None |}
              ["hello"; "/reset"; "  Any flights to Hanoi?  "]
              [Sdk.Reply narrative_reply; Sdk.Reply tool_reply] quiet_net))
    = system_message :: tail
    /\ Forall (fun m => Msg.role m <> "system") tail.
Proof.
  refine (@system_message_stays_first sample_codec
            {| API_KEY := Some "sk-test"; BASE_URL := None |}
            ["hello"; "/reset"; "  Any flights to Hanoi?  "]
            [Sdk.Reply narrative_reply; Sdk.Reply tool_reply] quiet_net
            "sk-test" eq_refl _).
  discriminate.
Defined.

(** ** The shape of a turn *)

Section Turn.

Context {codec : Json}.

Lemma for_tool_calls_appends (calls : list Sdk.tool_call) :
  forall st,
    stdout (snd (for_tool_calls calls st)) = stdout st
    /\ exists added,
         messages (snd (for_tool_calls calls st)) = messages st ++ added
         /\ Forall tool_round_message added.
Proof.
  induction calls as [|call calls IH]; intros st; cbn [for_tool_calls].
  - split; [reflexivity|]. exists []. now rewrite app_nil_r.
  - pose proof (on_network_messages (handle_tool_call call) st) as [Hmsgs Hout].
    destruct (on_network (handle_tool_call call) st) as [[tool_result|e] st1];
      cbn [snd] in Hmsgs, Hout |- *.
    + destruct (IH (append (tool_message (Sdk.id call) (json_dumps tool_result)) st1))
        as (Hout' & added & Hadded & Hall).
      split; [now rewrite Hout'|].
      exists (tool_message (Sdk.id call) (json_dumps tool_result) :: added).
      rewrite Hadded. cbn [append messages]. rewrite Hmsgs, <- app_assoc.
      split; [reflexivity|]. constructor; [now left|exact Hall].
    + split; [exact Hout|]. exists []. now rewrite app_nil_r.
Qed.

Lemma model_loop_completed (replies : list Sdk.completion) :
  forall st remaining st',
    model_loop replies st = (Completed, remaining, st') ->
    exists body text shown used,
      messages st' = messages st ++ body ++ [narrative_message text]
      /\ Forall tool_round_message body
      /\ stdout st' = stdout st ++ [Printed (dashes 60); Printed shown; Printed (dashes 60)]
      /\ replies = used ++ remaining
      /\ used <> [].
Proof.
  induction replies as [|[message|e] replies IH]; intros st remaining st';
    cbn [model_loop]; try discriminate.
  unfold model_round.
  destruct (Sdk.tool_calls message) as [[|call more]|] eqn:Hcalls.
  - destruct (extract_text (Sdk.content message)) as [text|]; [|discriminate].
    intros [= <- <-]. exists [], text. eexists. exists [Sdk.Reply message].
    cbn [append messages stdout print_response print app].
    repeat split; try constructor; try discriminate.
    now rewrite <- !app_assoc.
  - pose proof (for_tool_calls_appends (call :: more)
                  (append (requests_message message (call :: more)) st))
      as (Hout & added & Hadded & Hall).
    destruct (for_tool_calls (call :: more)
                (append (requests_message message (call :: more)) st))
      as [[[]|e] st1]; [|discriminate].
    cbn [snd] in Hout, Hadded.
    intros Hrest.
    destruct (IH _ _ _ Hrest)
      as (body & text & shown & used & Hmsgs & Hbody & Hshown & Hused & _).
    exists (requests_message message (call :: more) :: added ++ body), text, shown,
      (Sdk.Reply message :: used).
    split; [|split; [|split; [|split]]].
    + rewrite Hmsgs, Hadded. cbn [append messages].
      rewrite <- !app_assoc. cbn [app]. now rewrite <- app_assoc.
    + constructor.
      * right. split; [reflexivity|]. cbn. eauto.
      * apply Forall_app. now split.
    + rewrite Hshown, Hout. reflexivity.
    + cbn [app]. now rewrite Hused.
    + discriminate.
  - destruct (extract_text (Sdk.content message)) as [text|]; [|discriminate].
    intros [= <- <-]. exists [], text. eexists. exists [Sdk.Reply message].
    cbn [append messages stdout print_response print app].
    repeat split; try constructor; try discriminate.
    now rewrite <- !app_assoc.
Qed.

(** X18. A turn that comes back to the prompt has only added to the
    transcript: assistant messages that carry requests and tool results,
    closed by one assistant message without requests - the narrative.  The
    tool rounds are silent: all the turn prints is that narrative between
    its two dividers.  The turn has used up at least one reply of the model
    and left the others, in order, for the turns to come. *)
Theorem completed_turn_ends_with_narrative (replies : list Sdk.completion)
    (st st' : state) (remaining : list Sdk.completion) :
  model_loop replies st = (Completed, remaining, st') ->
  exists body text shown used,
    messages st'
    = messages st ++ body
      ++ [{| Msg.role := "assistant"; Msg.content := VStr text;
             Msg.tool_calls := None; Msg.tool_call_id := None |}]
    /\ Forall tool_round_message body
    /\ stdout st' = stdout st ++ [Printed (dashes 60); Printed shown; Printed (dashes 60)]
    /\ replies = used ++ remaining
    /\ used <> [].
Proof. exact (model_loop_completed replies st remaining st'). Qed.

End Turn.

Lemma completed_turn_ends_with_narrative_witness :
  exists body text shown used,
    messages
      (snd (@model_loop sample_codec [Sdk.Reply tool_reply; Sdk.Reply narrative_reply] ready))
    = messages ready ++ body
      ++ [{| Msg.role := "assistant"; Msg.content := VStr text;
             Msg.tool_calls := None; Msg.tool_call_id := None |}]
    /\ Forall tool_round_message body
    /\ stdout
         (snd (@model_loop sample_codec [Sdk.Reply tool_reply; Sdk.Reply narrative_reply]
                 ready))
       = stdout ready ++ [Printed (dashes 60); Printed shown; Printed (dashes 60)]
    /\ [Sdk.Reply tool_reply; Sdk.Reply narrative_reply] = used ++ []
    /\ used <> [].
Proof.
  exact (@completed_turn_ends_with_narrative sample_codec
           [Sdk.Reply tool_reply; Sdk.Reply narrative_reply] ready _ _ eq_refl).
Defined.

(** ** What the console shows does not steer the session *)

Section Forgetting.

Context {codec : Json}.

Lemma alike_states (st1 st2 : state) :
  alike st1 st2 ->
  st2 = {| messages := messages st1; stdout := stdout st2; network := network st1 |}.
Proof. destruct st1, st2. intros [Hm Hn]. cbn in Hm, Hn. now subst. Qed.

Lemma for_tool_calls_alike (calls : list Sdk.tool_call) :
  forall st1 st2,
    alike st1 st2 ->
    fst (for_tool_calls calls st1) = fst (for_tool_calls calls st2)
    /\ alike (snd (for_tool_calls calls st1)) (snd (for_tool_calls calls st2)).
Proof.
  induction calls as [|call calls IH]; intros st1 st2 Halike; cbn [for_tool_calls].
  - now split.
  - unfold on_network. destruct Halike as [Hm Hn]. rewrite <- Hn.
    destruct (handle_tool_call call (network st1)) as [[tool_result|e] w1].
    + apply IH. split; cbn; [now rewrite Hm|reflexivity].
    + split; [reflexivity|]. split; cbn; [exact Hm|reflexivity].
Qed.

Lemma model_round_alike (message : Sdk.chat_message) (st1 st2 : state) :
  alike st1 st2 ->
  fst (model_round message st1) = fst (model_round message st2)
  /\ alike (snd (model_round message st1)) (snd (model_round message st2)).
Proof.
  intros Halike. unfold model_round.
  assert (Hplain :
    fst match extract_text (Sdk.content message) with
        | Return assistant_text =>
            (Return false,
             append (narrative_message assistant_text)
               (print_response
                  (if strip assistant_text =? "" then NO_NARRATIVE
                   else strip assistant_text) st1))
        | Raise e => (Raise e, st1)
        end
    = fst match extract_text (Sdk.content message) with
          | Return assistant_text =>
              (Return false,
               append (narrative_message assistant_text)
                 (print_response
                    (if strip assistant_text =? "" then NO_NARRATIVE
                     else strip assistant_text) st2))
          | Raise e => (Raise e, st2)
          end
    /\ alike
         (snd match extract_text (Sdk.content message) with
              | Return assistant_text =>
                  (Return false,
                   append (narrative_message assistant_text)
                     (print_response
                        (if strip assistant_text =? "" then NO_NARRATIVE
                         else strip assistant_text) st1))
              | Raise e => (Raise e, st1)
              end)
         (snd match extract_text (Sdk.content message) with
              | Return assistant_text =>
                  (Return false,
                   append (narrative_message assistant_text)
                     (print_response
                        (if strip assistant_text =? "" then NO_NARRATIVE
                         else strip assistant_text) st2))
              | Raise e => (Raise e, st2)
              end)).
  { destruct Halike as [Hm Hn].
    destruct (extract_text (Sdk.content message)); cbn; (split; [reflexivity|]);
      split; cbn; congruence. }
  destruct (Sdk.tool_calls message) as [[|call more]|]; try exact Hplain.
  destruct (for_tool_calls_alike (call :: more)
              (append (requests_message message (call :: more)) st1)
              (append (requests_message message (call :: more)) st2))
    as [Hfst Hsnd].
  { destruct Halike as [Hm Hn]. split; cbn; congruence. }
  destruct (for_tool_calls (call :: more)
              (append (requests_message message (call :: more)) st1)) as [[[]|e1] s1],
           (for_tool_calls (call :: more)
              (append (requests_message message (call :: more)) st2)) as [[[]|e2] s2];
    cbn [fst snd] in Hfst, Hsnd |- *; try discriminate; split; congruence.
Qed.

Lemma model_loop_alike (replies : list Sdk.completion) :
  forall st1 st2,
    alike st1 st2 ->
    fst (model_loop replies st1) = fst (model_loop replies st2)
    /\ alike (snd (model_loop replies st1)) (snd (model_loop replies st2)).
Proof.
  induction replies as [|[message|e] replies IH]; intros st1 st2 Halike; cbn [model_loop];
    try (now split).
  destruct (model_round_alike message st1 st2 Halike) as [Hfst Hsnd].
  destruct (model_round message st1) as [[[|]|e1] s1],
           (model_round message st2) as [[[|]|e2] s2];
    cbn [fst snd] in Hfst, Hsnd |- *; try discriminate.
  - now apply IH.
  - now split.
  - split; [congruence|exact Hsnd].
Qed.

Lemma user_loop_alike (lines : list string) :
  forall replies st1 st2,
    alike st1 st2 ->
    fst (user_loop lines replies st1) = fst (user_loop lines replies st2)
    /\ alike (snd (user_loop lines replies st1)) (snd (user_loop lines replies st2)).
Proof.
  induction lines as [|line lines IH]; intros replies st1 st2 Halike; cbn [user_loop].
  - split; [reflexivity|]. destruct Halike. now split.
  - destruct (strip line =? "").
    { apply IH. destruct Halike. now split. }
    destruct ((lower (strip line) =? "/exit") || (lower (strip line) =? "/quit")).
    { split; [reflexivity|]. destruct Halike. now split. }
    destruct (lower (strip line) =? "/reset").
    { apply IH. destruct Halike. now split. }
    destruct (model_loop_alike replies
                (append (user_message (strip line)) (prompt "You> " st1))
                (append (user_message (strip line)) (prompt "You> " st2)))
      as [Hfst Hsnd].
    { destruct Halike as [Hm Hn]. split; cbn; congruence. }
    destruct (model_loop replies (append (user_message (strip line)) (prompt "You> " st1)))
      as [[e1 r1] s1],
             (model_loop replies (append (user_message (strip line)) (prompt "You> " st2)))
      as [[e2 r2] s2].
    cbn [fst snd] in Hfst, Hsnd. injection Hfst as <- <-.
    destruct e1; [now apply IH|now split|now split].
Qed.

(** X19. A reset forgets the conversation for good.  From a [/reset] line
    on, how the session ends, which replies of the model it uses, what it
    sends to the providers and the transcript it builds do not depend on
    what the transcript held or the console showed before: two sessions that
    share the network only agree on all of them. *)
Theorem reset_forgets_the_conversation (line : string) (rest : list string)
    (replies : list Sdk.completion) (st1 st2 : state) :
  lower (strip line) = "/reset" ->
  network st1 = network st2 ->
  fst (user_loop (line :: rest) replies st1) = fst (user_loop (line :: rest) replies st2)
  /\ messages (snd (user_loop (line :: rest) replies st1))
     = messages (snd (user_loop (line :: rest) replies st2))
  /\ network (snd (user_loop (line :: rest) replies st1))
     = network (snd (user_loop (line :: rest) replies st2)).
Proof.
  intros Hreset Hnet. cbn [user_loop].
  destruct (strip line =? "") eqn:Hempty.
  { apply String.eqb_eq in Hempty. rewrite Hempty in Hreset. discriminate. }
  rewrite Hreset. cbn [String.eqb Ascii.eqb Bool.eqb orb].
  destruct (user_loop_alike rest replies
              (print "Conversation reset." (assign [system_message] (prompt "You> " st1)))
              (print "Conversation reset." (assign [system_message] (prompt "You> " st2))))
    as (Hfst & Hm & Hn).
  { split; cbn; [reflexivity|exact Hnet]. }
  repeat split; assumption.
Qed.

End Forgetting.

Lemma reset_forgets_the_conversation_witness :
  fst (@user_loop sample_codec ["/reset"; "hello"] [Sdk.Reply narrative_reply] ready)
  = fst (@user_loop sample_codec ["/reset"; "hello"] [Sdk.Reply narrative_reply]
           (append (user_message "earlier") (print "noise" ready)))
  /\ messages
       (snd (@user_loop sample_codec ["/reset"; "hello"] [Sdk.Reply narrative_reply] ready))
     = messages
         (snd (@user_loop sample_codec ["/reset"; "hello"] [Sdk.Reply narrative_reply]
                 (append (user_message "earlier") (print "noise" ready))))
  /\ network
       (snd (@user_loop sample_codec ["/reset"; "hello"] [Sdk.Reply narrative_reply] ready))
     = network
         (snd (@user_loop sample_codec ["/reset"; "hello"] [Sdk.Reply narrative_reply]
                 (append (user_message "earlier") (print "noise" ready)))).
Proof.
  exact (@reset_forgets_the_conversation sample_codec "/reset" ["hello"]
           [Sdk.Reply narrative_reply] ready
           (append (user_message "earlier") (print "noise" ready)) eq_refl eq_refl).
Defined.

(** ** Lines that start no turn *)

Section Lines.

Context {codec : Json}.

(** X20. The model is asked on behalf of chat lines only.  A session whose
    lines are all blank or commands ends normally without using a reply of
    the model or sending a request, and its transcript is the one it started
    with or, after a reset, the system message alone. *)
Theorem commands_never_reach_the_model (lines : list string)
    (replies : list Sdk.completion) (st : state) :
  forallb (fun line => negb (is_chat line)) lines = true ->
  fst (user_loop lines replies st) = (Completed, replies)
  /\ network (snd (user_loop lines replies st)) = network st
  /\ (messages (snd (user_loop lines replies st)) = messages st
      \/ messages (snd (user_loop lines replies st)) = [system_message]).
Proof.
  revert st. induction lines as [|line lines IH]; intros st Hlines; cbn [user_loop].
  - repeat split. now left.
  - cbn [forallb] in Hlines. apply andb_prop in Hlines as [Hline Hlines].
    unfold is_chat, is_exit, is_reset in Hline.
    destruct (strip line =? "").
    { destruct (IH (prompt "You> " st) Hlines) as (Hend & Hnet & Hmsgs).
      repeat split; assumption. }
    destruct ((lower (strip line) =? "/exit") || (lower (strip line) =? "/quit")).
    { repeat split. now left. }
    destruct (lower (strip line) =? "/reset"); [|discriminate].
    destruct (IH (print "Conversation reset."
                    (assign [system_message] (prompt "You> " st))) Hlines)
      as (Hend & Hnet & Hmsgs).
    repeat split; [exact Hend|exact Hnet|].
    right. destruct Hmsgs as [Hmsgs | Hmsgs]; exact Hmsgs.
Qed.

(** X21. Nothing is read after [/exit] or [/quit]: the lines that follow
    the command have no effect on how the session ends, on the transcript,
    on what is printed or on what is sent. *)
Theorem nothing_is_read_after_exit (before later : list string) (line : string)
    (replies : list Sdk.completion) (st : state) :
  is_exit line = true ->
  user_loop (before ++ line :: later) replies st = user_loop (before ++ [line]) replies st.
Proof.
  intros Hexit. revert replies st.
  induction before as [|b before IH]; intros replies st; cbn [app user_loop].
  - unfold is_exit in Hexit.
    destruct (strip line =? "") eqn:Hempty.
    { apply String.eqb_eq in Hempty. rewrite Hempty in Hexit. discriminate. }
    now rewrite Hexit.
  - destruct (strip b =? ""); [apply IH|].
    destruct ((lower (strip b) =? "/exit") || (lower (strip b) =? "/quit"));
      [reflexivity|].
    destruct (lower (strip b) =? "/reset"); [apply IH|].
    destruct (model_loop replies (append (user_message (strip b)) (prompt "You> " st)))
      as [[[| |e] replies1] st1]; [apply IH|reflexivity|reflexivity].
Qed.

End Lines.

Lemma commands_never_reach_the_model_witness :
  fst (@user_loop sample_codec ["  "; "/RESET"; " /quit "]
         [Sdk.Reply narrative_reply] ready)
  = (Completed, [Sdk.Reply narrative_reply])
  /\ network
       (snd (@user_loop sample_codec ["  "; "/RESET"; " /quit "]
               [Sdk.Reply narrative_reply] ready)) = network ready
  /\ (messages
        (snd (@user_loop sample_codec ["  "; "/RESET"; " /quit "]
                [Sdk.Reply narrative_reply] ready)) = messages ready
      \/ messages
           (snd (@user_loop sample_codec ["  "; "/RESET"; " /quit "]
                   [Sdk.Reply narrative_reply] ready)) = [system_message]).
Proof.
  exact (@commands_never_reach_the_model sample_codec ["  "; "/RESET"; " /quit "]
           [Sdk.Reply narrative_reply] ready eq_refl).
Defined.

Lemma nothing_is_read_after_exit_witness :
  @user_loop sample_codec (["  "] ++ "/Quit" :: ["hello"; "/reset"])
    [Sdk.Reply narrative_reply] ready
  = @user_loop sample_codec (["  "] ++ ["/Quit"]) [Sdk.Reply narrative_reply] ready.
Proof.
  exact (@nothing_is_read_after_exit sample_codec ["  "] ["hello"; "/reset"] "/Quit"
           [Sdk.Reply narrative_reply] ready eq_refl).
Defined.

Lemma clamp_covers_every_value_witness :
  is_number (VBool true) = true
  /\ (forall b, VBool true = VBool b -> VInt 1 = VInt 1)
  /\ ((exists z, VInt 1 = VInt z /\ (1 <= z <= 24)%Z)
      \/ (exists f, VBool true = VFloat f /\ VInt 1 = VFloat f
                    /\ Z_lt_float 1 f = true /\ Z_lt_float 24 f = false)).
Proof. exact (clamp_covers_every_value (VBool true)). Defined.

(** ** A failing completion call *)

(** X22. An exception of the completion call is not caught: it ends the
    session at once, with the user message of the turn already in the
    transcript, nothing printed for the turn, and the lines and replies that
    follow left unread. *)
Theorem completion_error_ends_the_session {codec : Json} (line : string)
    (rest : list string) (e : exn) (more : list Sdk.completion) (st : state) :
  is_chat line = true ->
  user_loop (line :: rest) (Sdk.ApiError e :: more) st
  = (Raised e, more,
     {| messages := messages st ++ [user_message (strip line)];
        stdout := stdout st ++ [Prompted "You> "];
        network := network st |}).
Proof.
  intros Hchat. unfold is_chat, is_exit, is_reset in Hchat.
  apply andb_prop in Hchat as [Hchat Hreset]. apply andb_prop in Hchat as [Hfull Hexit].
  apply negb_true_iff in Hfull, Hexit, Hreset.
  cbn [user_loop]. rewrite Hfull, Hexit, Hreset. reflexivity.
Qed.

Lemma completion_error_ends_the_session_witness :
  @user_loop sample_codec ["Hanoi tomorrow?"; "/exit"]
    [Sdk.ApiError (OtherError "APIConnectionError"); Sdk.Reply narrative_reply] ready
  = (Raised (OtherError "APIConnectionError"), [Sdk.Reply narrative_reply],
     {| messages := messages ready ++ [user_message (strip "Hanoi tomorrow?")];
        stdout := stdout ready ++ [Prompted "You> "];
        network := network ready |}).
Proof.
  exact (@completion_error_ends_the_session sample_codec "Hanoi tomorrow?" ["/exit"]
           (OtherError "APIConnectionError") [Sdk.Reply narrative_reply] ready eq_refl).
Defined.

(** ** The registry and the tool *)

Section Registry.

Context {codec : Json}.

Lemma keeps_to_schema_binds (entries : list (string * pyval)) :
  keeps_to_schema entries = binds_parameters (VDict entries).
Proof.
  unfold keeps_to_schema, binds_parameters.
  f_equal.
  - induction entries as [|[key value] entries IH]; cbn [forallb]; [reflexivity|].
    rewrite IH. cbn. now rewrite orb_false_r.
  - cbn. now rewrite andb_true_r.
Qed.

(** X23. The schema announced to the model is the contract of the call.
    Decoded arguments that keep to it - every key a declared parameter,
    every required parameter given - reach [fetch_weather_window] with the
    given [city] and with [hours] as given or, when absent, the declared
    default; a mapping that does not keep to it raises [TypeError] with
    nothing sent; and the declared [minimum] and [maximum] of [hours] are
    the bounds of the clamp. *)
Theorem schema_is_the_contract (entries : list (string * pyval)) (w : net) :
  match declared ["properties"; "hours"; "default"],
        declared ["properties"; "hours"; "minimum"],
        declared ["properties"; "hours"; "maximum"] with
  | Some default, Some (VInt low), Some (VInt high) =>
      (if keeps_to_schema entries then
         exists city,
           lookup entries "city" = Some city
           /\ call_fetch_weather_window (VDict entries) w
              = fetch_weather_window city
                  (match lookup entries "hours" with
                   | Some hours => hours
                   | None => default
                   end) w
       else call_fetch_weather_window (VDict entries) w = (Raise TypeError, w))
      /\ forall h, clamp_hours (VInt h) = Return (VInt (clamp h low high))
  | _, _, _ => False
  end.
Proof.
  cbn [declared TOOLS descend lookup String.eqb Ascii.eqb Bool.eqb].
  split; [|exact clamp_hours_int].
  rewrite keeps_to_schema_binds. unfold binds_parameters, call_fetch_weather_window.
  destruct (forallb _ entries); cbn [andb]; [|reflexivity].
  destruct (lookup entries "city") as [city|]; [|reflexivity].
  now exists city.
Qed.

End Registry.
